(** * weather_forcast: the forecast retriever and the Streamlit page

    A shallow embedding of [backend.py] (credential resolution and
    [get_data]) and of [main.py] (the page script with its Temperature
    and Sky branches), followed by the properties of the specification
    stated over that embedding. *)

From Stdlib Require Import ZArith List Floats.
From stdpp Require Import gmap strings list fin_maps pretty.

Local Open Scope string_scope.
Local Open Scope Z_scope.
Local Open Scope list_scope.

Local Set Warnings "-register-all".

(** ** Python values

    [response.json()] yields the usual JSON image in Python: [None],
    [bool], [int], [float], [str], [list] and [dict] with [str] keys.  A
    Python [str] is embedded as a Rocq [string]; its characters stand
    for the characters of the [str]. *)

Inductive json : Type :=
| JNull
| JBool (b : bool)
| JInt (z : Z)
| JFloat (f : float)
| JStr (s : string)
| JArr (l : list json)
| JObj (m : gmap string json).

(** The exception classes that the two source files can meet.
    [RequestException] stands for what [requests.get] raises on a
    transport failure (connection refused, DNS, ...), [JSONDecodeError]
    for what [response.json()] raises on a body that is not JSON,
    [ValueError] for what [px.line] raises on sequences it cannot
    chart. *)

Inductive exn : Type :=
| KeyError
| IndexError
| TypeError
| ValueError
| RequestException
| JSONDecodeError.

Inductive result (A : Type) : Type :=
| Ok (a : A)
| Raise (e : exn).

Arguments Ok {A} a.
Arguments Raise {A} e.

(** ** Observable effects *)

Inductive event : Type :=
| HttpGet (url : string)
| StTitle (text : string)
| StSubheader (text : string)
| StPlotlyChart (x y : list json)
| StImage (image_paths : list string) (width : Z) (caption : list json)
| StError (text : string).

(** A computation returns or raises, and records the effects it
    performed up to that point. *)

Definition M (A : Type) : Type := (result A * list event)%type.

Definition ret {A} (a : A) : M A := (Ok a, []).

Definition bind {A B} (m : M A) (k : A -> M B) : M B :=
  match m with
  | (Ok a, log) => let '(r, log') := k a in (r, log ++ log')
  | (Raise e, log) => (Raise e, log)
  end.

Definition emit (ev : event) : M unit := (Ok tt, [ev]).

Definition lift {A} (r : result A) : M A := (r, []).

(** [try: body except <class>: handler] *)
Definition try_except {A} (body : M A) (catches : exn -> bool)
    (handler : exn -> M A) : M A :=
  match body with
  | (Ok a, log) => (Ok a, log)
  | (Raise e, log) =>
      if catches e
      then let '(r, log') := handler e in (r, log ++ log')
      else (Raise e, log)
  end.

Notation "'let!' x ':=' m 'in' k" := (bind m (fun x => k))
  (at level 10, x pattern, m at level 100, k at level 200).
Notation "'do!' m 'in' k" := (bind m (fun _ => k))
  (at level 10, m at level 100, k at level 200).

(** A list comprehension [[f(entry) for entry in xs]]: the elements are
    evaluated left to right and the first exception ends the loop. *)
Fixpoint comprehension {A B} (f : A -> result B) (xs : list A) : result (list B) :=
  match xs with
  | [] => Ok []
  | x :: xs' =>
      match f x with
      | Raise e => Raise e
      | Ok y =>
          match comprehension f xs' with
          | Raise e => Raise e
          | Ok ys => Ok (y :: ys)
          end
      end
  end.

(** ** Subscripting *)

(** [v[k]] for a [str] key [k]. *)
Definition getitem_str (v : json) (k : string) : result json :=
  match v with
  | JObj m => match m !! k with
              | Some x => Ok x
              | None => Raise KeyError
              end
  | _ => Raise TypeError
  end.

(** [v[0]] *)
Definition getitem_0 (v : json) : result json :=
  match v with
  | JArr l => match l with
              | x :: _ => Ok x
              | [] => Raise IndexError
              end
  | JStr s => match s with
              | String c _ => Ok (JStr (String c ""))
              | EmptyString => Raise IndexError
              end
  | JObj _ => Raise KeyError
  | _ => Raise TypeError
  end.

(** The stop bound of [xs[:n]] on a sequence of length [len]: a
    negative bound counts from the end, and the bound is clamped to
    [0 .. len]. *)
Definition slice_stop (len : nat) (n : Z) : nat :=
  if n <? 0 then Z.to_nat (Z.max 0 (Z.of_nat len + n)) else Z.to_nat n.

(** What a slice can return: a [list] or a [str]. *)
Inductive pyseq : Type :=
| SeqList (l : list json)
| SeqStr (s : string).

(** The interpreter, the network and the charting library, as one
    request sees them.  [slices_hashable] is true from Python 3.12 on,
    where subscripting a [dict] with a slice is a failed key lookup
    instead of a type error.  [requests_get url] is what the network
    does with a GET of [url]: a transport failure, or a response whose
    body either parses as JSON or does not.  [plotly_express_line x y]
    is what plotly does when asked for a line figure of [x] and [y]
    that are not both empty: [None] when it builds the figure,
    otherwise the exception it raises. *)
Record response : Type := {
  status_code : Z;
  body_json : option json
}.

Inductive http_outcome : Type :=
| TransportError
| Responded (r : response).

Record world : Type := {
  slices_hashable : bool;
  requests_get : string -> http_outcome;
  plotly_express_line : list json -> list json -> option exn
}.

(** [v[:n]] *)
Definition slice_to (w : world) (v : json) (n : Z) : result pyseq :=
  match v with
  | JArr l => Ok (SeqList (take (slice_stop (length l) n) l))
  | JStr s => Ok (SeqStr (String.substring 0 (slice_stop (String.length s) n) s))
  | JObj _ => Raise (if slices_hashable w then KeyError else TypeError)
  | _ => Raise TypeError
  end.

(** ** backend.py *)

(** What [st.secrets.get("API_KEY")] does at import time: it raises
    (no secrets file), or returns [None] or the stored value, taken
    here to be a string. *)
Inductive secrets_lookup : Type :=
| SecretsRaise
| SecretsValue (v : option string).

(** Truthiness of an optional [str]: [None] and [""] are falsy. *)
Definition truthy_opt (v : option string) : bool :=
  match v with
  | Some (String _ _) => true
  | _ => false
  end.

(** The module body of backend.py, run once when the module is first
    imported.  [getenv] is the value of [os.getenv("API_KEY")] after
    [load_dotenv()]. *)
Definition _SECRET_API_KEY (secrets : secrets_lookup) : option string :=
  match secrets with
  | SecretsValue v => v
  | SecretsRaise => None
  end.

Definition API_KEY (secrets : secrets_lookup) (getenv : option string) : option string :=
  if truthy_opt (_SECRET_API_KEY secrets) then _SECRET_API_KEY secrets else getenv.

(** [{API_KEY}] inside an f-string. *)
Definition format_opt (v : option string) : string :=
  match v with
  | Some s => s
  | None => "None"
  end.

Definition forecast_url (api_key : option string) (place : string) : string :=
  "http://api.openweathermap.org/data/2.5/forecast?q=" +:+ place
    +:+ "&appid=" +:+ format_opt api_key +:+ "&units=metric".

(** [requests.get(url)]: one GET, no status check, no retry. *)
Definition requests_get_url (w : world) (url : string) : M response :=
  do! emit (HttpGet url) in
  match requests_get w url with
  | TransportError => lift (Raise RequestException)
  | Responded r => ret r
  end.

(** [response.json()] *)
Definition response_json (r : response) : result json :=
  match body_json r with
  | Some data => Ok data
  | None => Raise JSONDecodeError
  end.

Definition get_data (w : world) (api_key : option string)
    (place : string) (forcast_days : Z) : M pyseq :=
  let url := forecast_url api_key place in
  let! response := requests_get_url w url in
  let! data := lift (response_json response) in
  let! filtered_data := lift (getitem_str data "list") in
  let nr_values := 8 * forcast_days in
  let! filtered_data := lift (slice_to w filtered_data nr_values) in
  ret filtered_data.

(** ** main.py *)

(** [for entry in filtered_data]: the elements of a list, or the
    characters of a string. *)
Definition iter_seq (xs : pyseq) : list json :=
  match xs with
  | SeqList l => l
  | SeqStr s => map (fun c => JStr (String c "")) (String.list_ascii_of_string s)
  end.

Definition rbind {A B} (r : result A) (k : A -> result B) : result B :=
  match r with
  | Ok a => k a
  | Raise e => Raise e
  end.

(** [entry["main"]["temp"]] *)
Definition entry_temp (entry : json) : result json :=
  rbind (getitem_str entry "main") (fun m => getitem_str m "temp").

(** [entry["dt_txt"]] *)
Definition entry_dt_txt (entry : json) : result json :=
  getitem_str entry "dt_txt".

(** [entry["weather"][0]["main"]] *)
Definition entry_sky (entry : json) : result json :=
  rbind (getitem_str entry "weather") (fun ws =>
  rbind (getitem_0 ws) (fun w0 => getitem_str w0 "main")).

Definition images : gmap string string :=
  list_to_map [("Clear", "images/clear.png");
               ("Clouds", "images/cloud.png");
               ("Rain", "images/rain.png");
               ("Snow", "images/snow.png")].

(** [images[condition]]: a [list] or [dict] is unhashable; any other
    value that is not one of the keys is a failed lookup. *)
Definition images_getitem (condition : json) : result string :=
  match condition with
  | JStr s => match images !! s with
              | Some path => Ok path
              | None => Raise KeyError
              end
  | JArr _ | JObj _ => Raise TypeError
  | _ => Raise KeyError
  end.

(** A plotly figure, as far as the page is concerned: the two
    sequences it draws. *)
Record figure : Type := {
  figure_x : list json;
  figure_y : list json
}.

(** [px.line(x=dates, y=temperature, labels=...)].  Given two empty
    sequences plotly takes both for lists of column references and
    raises [ValueError]; for every other pair the outcome is the
    library's, read from the world. *)
Definition px_line (w : world) (x y : list json) : result figure :=
  match x, y with
  | [], [] => Raise ValueError
  | _, _ =>
      match plotly_express_line w x y with
      | None => Ok {| figure_x := x; figure_y := y |}
      | Some e => Raise e
      end
  end.

(** [st.plotly_chart(figure)]: the chart is recorded with the two
    sequences of the figure. *)
Definition st_plotly_chart (fig : figure) : M unit :=
  emit (StPlotlyChart (figure_x fig) (figure_y fig)).

(** The body of [if option == "Temperature":]. *)
Definition temperature_branch (w : world) (filtered_data : pyseq) : M unit :=
  let! temperature := lift (comprehension entry_temp (iter_seq filtered_data)) in
  let! dates := lift (comprehension entry_dt_txt (iter_seq filtered_data)) in
  let! figure := lift (px_line w dates temperature) in
  st_plotly_chart figure.

(** The body of [if option == "Sky":].  [st.image] belongs to the UI
    collaborator; the grid is recorded with the paths and captions
    handed to it. *)
Definition sky_branch (filtered_data : pyseq) : M unit :=
  let! sky := lift (comprehension entry_sky (iter_seq filtered_data)) in
  let! image_paths := lift (comprehension images_getitem sky) in
  let! caption := lift (comprehension entry_dt_txt (iter_seq filtered_data)) in
  emit (StImage image_paths 115 caption).

(** Truthiness of a [str]. *)
Definition truthy_str (s : string) : bool :=
  match s with
  | EmptyString => false
  | String _ _ => true
  end.

(** [except KeyError] *)
Definition is_KeyError (e : exn) : bool :=
  match e with
  | KeyError => true
  | _ => false
  end.

(** [f"{option} for the next {days} days in {place}"] *)
Definition subheader_text (option : string) (days : Z) (place : string) : string :=
  option +:+ " for the next " +:+ pretty days +:+ " days in " +:+ place.

(** One run of the page script.  [place], [days] and [option] are the
    values returned by [st.text_input], [st.slider] and
    [st.selectbox]; [api_key] is [backend.API_KEY], fixed when the
    module was imported.  A result [Raise e] is an exception that
    leaves the script uncaught. *)
Definition main (w : world) (api_key : option string)
    (place : string) (days : Z) (option : string) : M unit :=
  do! emit (StTitle "Weather Forcast For The Next Days") in
  do! emit (StSubheader (subheader_text option days place)) in
  if truthy_str place then
    try_except
      (let! filtered_data := get_data w api_key place days in
       do! (if String.eqb option "Temperature"
            then temperature_branch w filtered_data
            else ret tt) in
       if String.eqb option "Sky"
       then sky_branch filtered_data
       else ret tt)
      is_KeyError
      (fun _ => emit (StError "City not found. Please try again."))
  else ret tt.

(** ** Reading a run *)

Definition is_ok {A} (r : result A) : bool :=
  match r with
  | Ok _ => true
  | Raise _ => false
  end.

Definition is_HttpGet (ev : event) : bool :=
  match ev with
  | HttpGet _ => true
  | _ => false
  end.

Definition is_StError (ev : event) : bool :=
  match ev with
  | StError _ => true
  | _ => false
  end.

Definition is_StImage (ev : event) : bool :=
  match ev with
  | StImage _ _ _ => true
  | _ => false
  end.

Definition is_JStr (v : json) : bool :=
  match v with
  | JStr _ => true
  | _ => false
  end.

(** The effects every run starts with, whatever the inputs. *)
Definition page_header (option : string) (days : Z) (place : string) : list event :=
  [StTitle "Weather Forcast For The Next Days";
   StSubheader (subheader_text option days place)].

Definition generic_error : event := StError "City not found. Please try again.".

(** The page states of the specification, read off the effects of a
    run: [DisplayingResult] is the state in which a fetch has been
    attempted, [AwaitingPlace] the one in which none has. *)
Inductive ui_state : Type :=
| AwaitingPlace
| DisplayingResult.

Definition spec_ui_state (log : list event) : ui_state :=
  if existsb is_HttpGet log then DisplayingResult else AwaitingPlace.

(** A forecast point as the provider sends it, as far as Temperature
    mode goes: an object with a [dt_txt] and with a [main] object that
    has a [temp]. *)
Definition temperature_point (entry : json) : bool :=
  match entry with
  | JObj m =>
      match m !! "dt_txt", m !! "main" with
      | Some _, Some (JObj mm) =>
          match mm !! "temp" with
          | Some _ => true
          | None => false
          end
      | _, _ => false
      end
  | _ => false
  end.

(** An entry the Sky branch can read a category from. *)
Definition has_sky (entry : json) : bool :=
  is_ok (entry_sky entry).

(** A category that [images] has no icon for. *)
Definition unmapped (condition : json) : bool :=
  negb (is_ok (images_getitem condition)).


(** ** backend.py run as a script

    The block under [if __name__ == "__main__":]. *)

(** A line written by [print].  The argument of an f-string is kept
    as the value handed to the formatter, after the literal text that
    precedes it. *)
Inductive printed : Type :=
| PrintText (text : string)
| PrintValue (label : string) (value : json)
| PrintExn (label : string) (e : exn).

(** What the script does: the effects of [get_data], and its own
    prints. *)
Inductive script_event : Type :=
| Effect (ev : event)
| Print (line : printed).

Definition S (A : Type) : Type := (result A * list script_event)%type.

Definition sbind {A B} (m : S A) (k : A -> S B) : S B :=
  match m with
  | (Ok a, log) => let '(r, log') := k a in (r, log ++ log')
  | (Raise e, log) => (Raise e, log)
  end.

Definition print (line : printed) : S unit := (Ok tt, [Print line]).

Definition slift {A} (r : result A) : S A := (r, []).

(** A call into the module's functions, with its effects. *)
Definition call {A} (m : M A) : S A := (fst m, map Effect (snd m)).

(** [try: body except Exception as e: handler]; every exception class
    of the embedding derives from [Exception]. *)
Definition try_except_Exception {A} (body : S A) (handler : exn -> S A) : S A :=
  match body with
  | (Ok a, log) => (Ok a, log)
  | (Raise e, log) => let '(r, log') := handler e in (r, log ++ log')
  end.

Notation "'let$' x ':=' m 'in' k" := (sbind m (fun x => k))
  (at level 10, x pattern, m at level 100, k at level 200).
Notation "'do$' m 'in' k" := (sbind m (fun _ => k))
  (at level 10, m at level 100, k at level 200).

(** [len(test_data)] *)
Definition seq_len (xs : pyseq) : nat :=
  match xs with
  | SeqList l => length l
  | SeqStr s => String.length s
  end.

(** [if test_data:] *)
Definition truthy_seq (xs : pyseq) : bool :=
  match xs with
  | SeqList [] => false
  | SeqStr EmptyString => false
  | _ => true
  end.

(** [test_data[0]] *)
Definition seq_getitem_0 (xs : pyseq) : result json :=
  match xs with
  | SeqList l => getitem_0 (JArr l)
  | SeqStr s => getitem_0 (JStr s)
  end.

Definition script_main (w : world) (api_key : option string) : S unit :=
  try_except_Exception
    (let$ test_data := call (get_data w api_key "Tokyo" 3) in
     do$ print (PrintText ("Number of data points retrieved: "
                             +:+ pretty (Z.of_nat (seq_len test_data)))) in
     if truthy_seq test_data then
       do$ print (PrintText "Sample data point structure:") in
       let$ dt_txt := slift (rbind (seq_getitem_0 test_data) entry_dt_txt) in
       do$ print (PrintValue "Date/Time: " dt_txt) in
       let$ temp := slift (rbind (seq_getitem_0 test_data) entry_temp) in
       do$ print (PrintValue "Temperature (K): " temp) in
       let$ weather := slift (rbind (seq_getitem_0 test_data) entry_sky) in
       print (PrintValue "Weather: " weather)
     else (Ok tt, []))
    (fun e =>
       do$ print (PrintExn "Error testing get_data function: " e) in
       print (PrintText "Please check your API key and internet connection.")).

Definition is_Effect (ev : script_event) : bool :=
  match ev with
  | Effect _ => true
  | Print _ => false
  end.

(** ** Sample data *)

Module Samples.

(** One forecast entry shaped as the provider sends it. *)
Definition point (dt : Z) (dt_txt : string) (temp : float) (category : string) : json :=
  JObj (list_to_map
    [("dt", JInt dt);
     ("dt_txt", JStr dt_txt);
     ("main", JObj (list_to_map [("temp", JFloat temp)]));
     ("weather", JArr [JObj (list_to_map [("main", JStr category)])])]).

(** An entry whose list of weather descriptors is empty. *)
Definition point_no_weather (dt : Z) (dt_txt : string) (temp : float) : json :=
  JObj (list_to_map
    [("dt", JInt dt);
     ("dt_txt", JStr dt_txt);
     ("main", JObj (list_to_map [("temp", JFloat temp)]));
     ("weather", JArr [])]).

Definition forecast_body (entries : list json) : json :=
  JObj (list_to_map [("cod", JStr "200"); ("list", JArr entries)]).

(** The provider's payload for an unknown place. *)
Definition not_found_body : json :=
  JObj (list_to_map [("cod", JStr "404"); ("message", JStr "city not found")]).

(** A network that answers every GET with the same response; plotly
    builds a figure of whatever it is given. *)
Definition answering (status : Z) (body : option json) : world :=
  {| slices_hashable := true;
     requests_get := fun _ => Responded {| status_code := status; body_json := body |};
     plotly_express_line := fun _ _ => None |}.

(** A network that is down. *)
Definition unreachable : world :=
  {| slices_hashable := true;
     requests_get := fun _ => TransportError;
     plotly_express_line := fun _ _ => None |}.

Definition p0 : json := point 1758153600 "2025-09-18 00:00:00" 21.5 "Clear".
Definition p1 : json := point 1758164400 "2025-09-18 03:00:00" 20.25 "Clouds".
Definition p2 : json := point 1758175200 "2025-09-18 06:00:00" 19 "Rain".
Definition p_mist : json := point 1758186000 "2025-09-18 09:00:00" 18.5 "Mist".
Definition p_bare : json := point_no_weather 1758196800 "2025-09-18 12:00:00" 18.


(** The provider answers with a forecast that has a Mist entry. *)
Definition mist_world : world :=
  answering 200 (Some (forecast_body [p0; p_mist])).

(** A 404 whose body nevertheless carries a forecast list. *)
Definition listed_404_world : world :=
  answering 404 (Some (forecast_body [p0])).

(** [n] consecutive three-hourly entries. *)
Definition series (n : nat) : list json :=
  map (fun i : nat => point (1758153600 + 10800 * Z.of_nat i) "2025-09-18" 20 "Clear")
      (seq 0 n).

End Samples.

(** Entries and worlds for the edge cases. *)
Module Cases.

(** An entry without the key [main]. *)
Definition no_main : json :=
  JObj (list_to_map
    [("dt", JInt 1758207600);
     ("dt_txt", JStr "2025-09-18 15:00:00");
     ("weather", JArr [JObj (list_to_map [("main", JStr "Clear")])])]).

(** An entry without the key [weather]. *)
Definition no_weather_key : json :=
  JObj (list_to_map
    [("dt", JInt 1758218400);
     ("dt_txt", JStr "2025-09-18 18:00:00");
     ("main", JObj (list_to_map [("temp", JFloat 17.5)]))]).

(** An entry that is not an object at all. *)
Definition not_an_object : json := JInt 7.

Definition serving (entries : list json) : world :=
  Samples.answering 200 (Some (Samples.forecast_body entries)).

End Cases.

(** ** Basic facts about the effect monad *)

Lemma bind_ok {A B} (a : A) (log : list event) (k : A -> M B) :
  bind (Ok a, log) k = (fst (k a), log ++ snd (k a)).
Proof. unfold bind. destruct (k a); reflexivity. Qed.

Lemma bind_raise {A B} (e : exn) (log : list event) (k : A -> M B) :
  bind (Raise e, log) k = (Raise e, log).
Proof. reflexivity. Qed.

(** ** The forecast retriever *)

(** [get_data] performs one GET, of the templated URL, whatever the
    network answers and whatever follows. *)
Lemma get_data_log (w : world) (api_key : option string) (place : string) (days : Z) :
  snd (get_data w api_key place days) = [HttpGet (forecast_url api_key place)].
Proof.
  unfold get_data, requests_get_url, response_json.
  destruct (requests_get w _) as [|r]; cbn; [reflexivity|].
  destruct (body_json r) as [data|]; cbn; [|reflexivity].
  destruct (getitem_str data "list") as [v|e]; cbn; [|reflexivity].
  destruct (slice_to w v (8 * days)); reflexivity.
Qed.

Lemma try_except_bind_ok {A B} (a : A) (log : list event) (k : A -> M B)
    (catches : exn -> bool) (handler : exn -> M B) :
  try_except (bind (Ok a, log) k) catches handler
  = (fst (try_except (k a) catches handler),
     log ++ snd (try_except (k a) catches handler)).
Proof.
  unfold bind, try_except.
  destruct (k a) as [[b|e] log']; cbn; [reflexivity|].
  destruct (catches e); [|reflexivity].
  destruct (handler e) as [r log'']; cbn. by rewrite app_assoc.
Qed.

(** ** The page script, split at the fetch *)

(** With an empty place the script stops after the header. *)
Lemma main_empty_place (w : world) (api_key : option string) (days : Z) (option : string) :
  main w api_key "" days option = (Ok tt, page_header option days "").
Proof. reflexivity. Qed.

(** A fetch that raises: a [KeyError] becomes the generic message,
    anything else leaves the script. *)
Lemma main_fetch_raises (w : world) (api_key : option string) (place : string)
    (days : Z) (option : string) (e : exn) :
  truthy_str place = true ->
  fst (get_data w api_key place days) = Raise e ->
  main w api_key place days option
  = if is_KeyError e
    then (Ok tt, page_header option days place
                   ++ [HttpGet (forecast_url api_key place); generic_error])
    else (Raise e, page_header option days place
                     ++ [HttpGet (forecast_url api_key place)]).
Proof.
  intros Hplace Hfetch. unfold main. rewrite Hplace.
  pose proof (get_data_log w api_key place days) as Hlog.
  destruct (get_data w api_key place days) as [r log]; cbn in Hfetch, Hlog; subst.
  cbn. destruct (is_KeyError e); reflexivity.
Qed.

(** A fetch that returns: the rest of the run is the two branches
    under the handler. *)
Lemma main_fetch_returns (w : world) (api_key : option string) (place : string)
    (days : Z) (option : string) (filtered_data : pyseq) :
  truthy_str place = true ->
  fst (get_data w api_key place days) = Ok filtered_data ->
  let rest :=
    try_except
      (do! (if String.eqb option "Temperature"
            then temperature_branch w filtered_data
            else ret tt) in
       if String.eqb option "Sky"
       then sky_branch filtered_data
       else ret tt)
      is_KeyError
      (fun _ => emit generic_error) in
  main w api_key place days option
  = (fst rest,
     page_header option days place
       ++ HttpGet (forecast_url api_key place) :: snd rest).
Proof.
  intros Hplace Hfetch rest. unfold main. rewrite Hplace.
  pose proof (get_data_log w api_key place days) as Hlog.
  destruct (get_data w api_key place days) as [r log]; cbn in Hfetch, Hlog; subst.
  rewrite try_except_bind_ok. subst rest. unfold generic_error.
  set (rest := try_except _ _ _). destruct rest as [r log]. reflexivity.
Qed.

(** The two branches, by the outcome of their comprehensions. *)
Lemma temperature_branch_eq (w : world) (filtered_data : pyseq) :
  temperature_branch w filtered_data
  = match comprehension entry_temp (iter_seq filtered_data) with
    | Raise e => (Raise e, [])
    | Ok temperature =>
        match comprehension entry_dt_txt (iter_seq filtered_data) with
        | Raise e => (Raise e, [])
        | Ok dates =>
            match px_line w dates temperature with
            | Raise e => (Raise e, [])
            | Ok fig => (Ok tt, [StPlotlyChart (figure_x fig) (figure_y fig)])
            end
        end
    end.
Proof.
  unfold temperature_branch.
  destruct (comprehension entry_temp _) as [temperature|]; cbn; [|reflexivity].
  destruct (comprehension entry_dt_txt _) as [dates|]; cbn; [|reflexivity].
  destruct (px_line w dates temperature); reflexivity.
Qed.

Lemma sky_branch_eq (filtered_data : pyseq) :
  sky_branch filtered_data
  = match comprehension entry_sky (iter_seq filtered_data) with
    | Raise e => (Raise e, [])
    | Ok sky =>
        match comprehension images_getitem sky with
        | Raise e => (Raise e, [])
        | Ok image_paths =>
            match comprehension entry_dt_txt (iter_seq filtered_data) with
            | Raise e => (Raise e, [])
            | Ok caption => (Ok tt, [StImage image_paths 115 caption])
            end
        end
    end.
Proof.
  unfold sky_branch.
  destruct (comprehension entry_sky _) as [sky|]; cbn; [|reflexivity].
  destruct (comprehension images_getitem sky); cbn; [|reflexivity].
  destruct (comprehension entry_dt_txt _); reflexivity.
Qed.

Ltac case_outcome :=
  match goal with
  | |- context [String.eqb ?a ?b] => destruct (String.eqb a b)
  | |- context [comprehension ?f ?xs] => destruct (comprehension f xs) as [?|[]]
  | |- context [px_line ?w ?x ?y] => destruct (px_line w x y) as [?|[]]
  end.

(** Nothing after the fetch touches the network. *)
Lemma render_no_get (w : world) (option : string) (filtered_data : pyseq) :
  List.filter is_HttpGet
    (snd (try_except
            (do! (if String.eqb option "Temperature"
                  then temperature_branch w filtered_data
                  else ret tt) in
             if String.eqb option "Sky"
             then sky_branch filtered_data
             else ret tt)
            is_KeyError
            (fun _ => emit generic_error))) = [].
Proof.
  rewrite temperature_branch_eq, sky_branch_eq.
  repeat case_outcome; reflexivity.
Qed.

(** A run with a place performs the GET of [get_data] and no other. *)
Lemma main_fetches_once (w : world) (api_key : option string) (place : string)
    (days : Z) (option : string) :
  truthy_str place = true ->
  List.filter is_HttpGet (snd (main w api_key place days option))
  = [HttpGet (forecast_url api_key place)].
Proof.
  intros Htruthy.
  destruct (fst (get_data w api_key place days)) as [filtered_data|e] eqn:Hfetch.
  - rewrite (main_fetch_returns _ _ _ _ _ _ Htruthy Hfetch). cbn [snd].
    cbn [page_header app List.filter is_HttpGet].
    by rewrite render_no_get.
  - rewrite (main_fetch_raises _ _ _ _ _ _ Htruthy Hfetch).
    destruct (is_KeyError e); reflexivity.
Qed.

Lemma truthy_str_nonempty (s : string) : truthy_str s = true <-> s <> "".
Proof. destruct s; cbn; split; congruence. Qed.

(** C9: every call of [get_data] issues exactly one HTTP GET, to the
    fixed forecast endpoint with the place, the credential and
    [units=metric] filled into the query; nothing is retried, whatever
    the network answers.  A run of the page with a place issues that
    one GET and no other. *)
Theorem get_data_single_get (w : world) (api_key : option string)
    (place : string) (days : Z) (option : string) :
  let url := "http://api.openweathermap.org/data/2.5/forecast?q=" +:+ place
               +:+ "&appid=" +:+ format_opt api_key +:+ "&units=metric" in
  snd (get_data w api_key place days) = [HttpGet url] /\
  (place <> "" ->
   List.filter is_HttpGet (snd (main w api_key place days option)) = [HttpGet url]).
Proof.
  intros url. split; [apply get_data_log|].
  intros Hplace. by apply main_fetches_once, truthy_str_nonempty.
Qed.

Lemma get_data_single_get_witness :
  snd (get_data Samples.unreachable (Some "k") "Tokyo" 2)
  = [HttpGet "http://api.openweathermap.org/data/2.5/forecast?q=Tokyo&appid=k&units=metric"] /\
  List.filter is_HttpGet (snd (main Samples.unreachable (Some "k") "Tokyo" 2 "Sky"))
  = [HttpGet "http://api.openweathermap.org/data/2.5/forecast?q=Tokyo&appid=k&units=metric"].
Proof.
  split.
  - exact (proj1 (get_data_single_get Samples.unreachable (Some "k") "Tokyo" 2 "Sky")).
  - apply (proj2 (get_data_single_get Samples.unreachable (Some "k") "Tokyo" 2 "Sky")).
    discriminate.
Defined.

(** The value of [get_data], by what the network answers. *)
Lemma get_data_result (w : world) (api_key : option string) (place : string) (days : Z) :
  fst (get_data w api_key place days)
  = match requests_get w (forecast_url api_key place) with
    | TransportError => Raise RequestException
    | Responded r =>
        rbind (response_json r) (fun data =>
        rbind (getitem_str data "list") (fun v =>
        slice_to w v (8 * days)))
    end.
Proof.
  unfold get_data, requests_get_url.
  destruct (requests_get w _) as [|r]; cbn; [reflexivity|].
  destruct (response_json r) as [data|]; cbn; [|reflexivity].
  destruct (getitem_str data "list") as [v|]; cbn; [|reflexivity].
  destruct (slice_to w v (8 * days)); reflexivity.
Qed.

Lemma get_data_eq (w : world) (api_key : option string) (place : string) (days : Z)
    (r : result pyseq) :
  fst (get_data w api_key place days) = r ->
  get_data w api_key place days = (r, [HttpGet (forecast_url api_key place)]).
Proof.
  intros <-. rewrite <- (get_data_log w api_key place days).
  by destruct (get_data w api_key place days).
Qed.

(** Slicing a list with a bound that is not negative keeps a prefix. *)
Lemma slice_stop_nonneg (len : nat) (n : Z) :
  0 <= n -> slice_stop len n = Z.to_nat n.
Proof.
  intros Hn. unfold slice_stop.
  destruct (Z.ltb_spec n 0); [lia|reflexivity].
Qed.

Lemma take_min_length {A} (n : nat) (l : list A) :
  take (Nat.min (length l) n) l = take n l.
Proof.
  destruct (Nat.le_gt_cases n (length l)) as [Hle|Hgt].
  - by rewrite Nat.min_r.
  - rewrite Nat.min_l by lia. rewrite !take_ge; [done|lia|lia].
Qed.

(** C1: for [days] in 1..5, when the provider answers with a forecast
    list, [get_data] returns exactly the first
    [min (number of samples, 8 * days)] entries of that list: the same
    entries at the same positions, a prefix of the provider's list,
    never padded, and the whole list when it has at most [8 * days]
    samples. *)
Theorem get_data_window (w : world) (api_key : option string) (place : string)
    (days : Z) (r : response) (m : gmap string json) (l : list json) :
  1 <= days <= 5 ->
  requests_get w (forecast_url api_key place) = Responded r ->
  body_json r = Some (JObj m) ->
  m !! "list" = Some (JArr l) ->
  let n := Nat.min (length l) (Z.to_nat (8 * days)) in
  let window := take n l in
  get_data w api_key place days
  = (Ok (SeqList window), [HttpGet (forecast_url api_key place)]) /\
  Z.of_nat (length window) = Z.min (Z.of_nat (length l)) (8 * days) /\
  (forall i : nat, (i < n)%nat -> window !! i = l !! i) /\
  l = window ++ drop n l /\
  (Z.of_nat (length l) <= 8 * days -> window = l).
Proof.
  intros Hdays Hget Hbody Hlist n window. repeat split.
  - apply get_data_eq. rewrite get_data_result, Hget.
    unfold response_json. rewrite Hbody. cbn. rewrite Hlist. cbn.
    rewrite slice_stop_nonneg by lia. subst window n.
    by rewrite take_min_length.
  - subst window. rewrite length_take. subst n. lia.
  - intros i Hi. subst window. by apply lookup_take_lt.
  - subst window. by rewrite take_drop.
  - intros Hle. subst window n. apply take_ge. lia.
Qed.

Lemma get_data_window_witness :
  get_data (Samples.answering 200 (Some (Samples.forecast_body (Samples.series 10))))
           (Some "k") "Tokyo" 1
  = (Ok (SeqList (Samples.series 8)),
     [HttpGet "http://api.openweathermap.org/data/2.5/forecast?q=Tokyo&appid=k&units=metric"]).
Proof.
  refine (proj1 (get_data_window
    (Samples.answering 200 (Some (Samples.forecast_body (Samples.series 10))))
    (Some "k") "Tokyo" 1 _ _ (Samples.series 10) _ _ _ _)).
  - lia.
  - reflexivity.
  - reflexivity.
  - vm_compute. reflexivity.
Defined.

(** ** List comprehensions *)

Section Comprehension.
Context {A B : Type} (f : A -> result B).

(** A comprehension that returns has evaluated [f] on every element,
    position by position. *)
Lemma comprehension_Forall2 (xs : list A) (ys : list B) :
  comprehension f xs = Ok ys <-> Forall2 (fun x y => f x = Ok y) xs ys.
Proof.
  revert ys. induction xs as [|x xs IH]; intros ys; cbn.
  - split.
    + intros [= <-]. constructor.
    + intros Hall. by inversion Hall.
  - destruct (f x) as [y|e] eqn:Hfx.
    + destruct (comprehension f xs) as [ys'|e] eqn:Hrest.
      * split.
        -- intros [= <-]. constructor; [done|]. by apply IH.
        -- intros Hall. inversion Hall as [|? y' ? ys'' Hy Htl]; subst.
           apply IH in Htl. congruence.
      * split; [done|].
        intros Hall. inversion Hall as [|? y' ? ys'' Hy Htl]; subst.
        apply IH in Htl. congruence.
    + split; [done|].
      intros Hall. inversion Hall; congruence.
Qed.

(** It returns when [f] returns on every element. *)
Lemma comprehension_total (xs : list A) :
  forallb (fun x => is_ok (f x)) xs = true ->
  exists ys, comprehension f xs = Ok ys.
Proof.
  induction xs as [|x xs IH]; cbn; [by eexists|].
  intros [Hx Hxs]%andb_prop. destruct (f x) as [y|]; [|done].
  destruct (IH Hxs) as [ys ->]. by eexists.
Qed.

(** It raises what [f] raises on the first element where [f] raises. *)
Lemma comprehension_raise (pre post : list A) (x : A) (e : exn) :
  forallb (fun x => is_ok (f x)) pre = true ->
  f x = Raise e ->
  comprehension f (pre ++ x :: post) = Raise e.
Proof.
  intros Hpre Hx. induction pre as [|p pre IH]; cbn.
  - by rewrite Hx.
  - cbn in Hpre. apply andb_prop in Hpre as [Hp Hpre].
    destruct (f p); [|done]. by rewrite (IH Hpre).
Qed.

End Comprehension.

(** ** Temperature mode *)

(** What the two accessors return on a forecast point. *)
Lemma temperature_point_fields (entry : json) :
  temperature_point entry = true ->
  exists (m mm : gmap string json) (d t : json),
    entry = JObj m /\ m !! "dt_txt" = Some d /\
    m !! "main" = Some (JObj mm) /\ mm !! "temp" = Some t /\
    entry_dt_txt entry = Ok d /\ entry_temp entry = Ok t.
Proof.
  destruct entry as [| | | | | |m]; try discriminate. cbn [temperature_point].
  destruct (m !! "dt_txt") as [d|] eqn:Hd; [|discriminate].
  destruct (m !! "main") as [[| | | | | |mm]|] eqn:Hmain; try discriminate.
  destruct (mm !! "temp") as [t|] eqn:Ht; [|discriminate].
  intros _. exists m, mm, d, t.
  unfold entry_dt_txt, entry_temp, getitem_str, rbind.
  by rewrite Hd, Hmain, Ht.
Qed.

Lemma temperature_points_readable (window : list json) :
  forallb temperature_point window = true ->
  forallb (fun x => is_ok (entry_temp x)) window = true /\
  forallb (fun x => is_ok (entry_dt_txt x)) window = true.
Proof.
  intros Hwf. split; apply forallb_forall; intros x Hx;
    apply (proj1 (forallb_forall _ _) Hwf) in Hx;
    destruct (temperature_point_fields x Hx) as (m & mm & d & t & _ & _ & _ & _ & Hd & Ht).
  - by rewrite Ht.
  - by rewrite Hd.
Qed.

(** C5: in Temperature mode, for a window of forecast points (objects
    with a [dt_txt] and a [main] object holding a [temp]), the two
    comprehensions return sequences [dates] and [temperature] of the
    window's length; position [i] of [dates] is the [dt_txt] field of
    entry [i] and position [i] of [temperature] is the [temp] field of
    its [main] object, the values exactly as the provider sent them.
    These two sequences are what [px.line] is called with, and what
    the chart shows when the window is not empty and plotly builds the
    figure. *)
Theorem temperature_sequences (w : world) (window : list json) :
  forallb temperature_point window = true ->
  exists temperature dates : list json,
    comprehension entry_temp window = Ok temperature /\
    comprehension entry_dt_txt window = Ok dates /\
    temperature_branch w (SeqList window)
    = (let! figure := lift (px_line w dates temperature) in st_plotly_chart figure) /\
    (window <> [] -> plotly_express_line w dates temperature = None ->
     temperature_branch w (SeqList window) = (Ok tt, [StPlotlyChart dates temperature])) /\
    length dates = length window /\
    length temperature = length window /\
    forall (i : nat) (entry : json),
      window !! i = Some entry ->
      exists (m mm : gmap string json) (d t : json),
        entry = JObj m /\ m !! "dt_txt" = Some d /\
        m !! "main" = Some (JObj mm) /\ mm !! "temp" = Some t /\
        dates !! i = Some d /\ temperature !! i = Some t.
Proof.
  intros Hwf.
  destruct (temperature_points_readable window Hwf) as [Htemp Hdate].
  destruct (comprehension_total entry_temp window Htemp) as [temperature Ht].
  destruct (comprehension_total entry_dt_txt window Hdate) as [dates Hd].
  exists temperature, dates.
  assert (temperature_branch w (SeqList window)
          = (let! figure := lift (px_line w dates temperature) in st_plotly_chart figure))
    as Hbranch.
  { rewrite temperature_branch_eq. cbn [iter_seq]. rewrite Ht, Hd.
    by destruct (px_line w dates temperature). }
  split; [exact Ht|]. split; [exact Hd|]. split; [exact Hbranch|].
  apply comprehension_Forall2 in Ht, Hd.
  pose proof (Forall2_length _ _ _ Ht) as Hlt.
  pose proof (Forall2_length _ _ _ Hd) as Hld.
  split.
  { intros Hne Hplotly. rewrite Hbranch. unfold px_line. rewrite Hplotly.
    destruct dates as [|d0 dates]; [|reflexivity].
    destruct window; [done|discriminate Hld]. }
  split; [done|]. split; [done|].
  intros i entry Hi.
  destruct (Forall2_lookup_l _ _ _ _ _ Ht Hi) as (t' & Hti & Hte).
  destruct (Forall2_lookup_l _ _ _ _ _ Hd Hi) as (d' & Hdi & Hde).
  assert (temperature_point entry = true) as Hpoint.
  { apply (proj1 (forallb_forall _ _) Hwf), list_elem_of_In.
    apply list_elem_of_lookup. by exists i. }
  destruct (temperature_point_fields entry Hpoint)
    as (m & mm & d & t & He & Hmd & Hmain & Hmt & Hd' & Ht').
  exists m, mm, d, t. repeat split; try done; congruence.
Qed.

Lemma temperature_sequences_witness :
  exists temperature dates : list json,
    comprehension entry_temp [Samples.p0; Samples.p1; Samples.p2] = Ok temperature /\
    comprehension entry_dt_txt [Samples.p0; Samples.p1; Samples.p2] = Ok dates /\
    temperature_branch Samples.unreachable (SeqList [Samples.p0; Samples.p1; Samples.p2])
    = (Ok tt, [StPlotlyChart dates temperature]) /\
    length dates = 3%nat /\
    length temperature = 3%nat.
Proof.
  destruct (temperature_sequences Samples.unreachable
              [Samples.p0; Samples.p1; Samples.p2])
    as (temperature & dates & Ht & Hd & _ & Hchart & Hld & Hlt & _).
  - vm_compute. reflexivity.
  - exists temperature, dates. repeat split; try done.
    apply Hchart; [discriminate|reflexivity].
Defined.

(** ** Sky mode: the icon table *)

Lemma images_dom (s : string) :
  is_Some (images !! s) <-> s ∈ ["Clear"; "Clouds"; "Rain"; "Snow"].
Proof.
  rewrite <- elem_of_dom. unfold images. rewrite dom_list_to_map_L. cbn.
  set_solver.
Qed.

Lemma images_cases (s p : string) :
  images !! s = Some p ->
  (s = "Clear" /\ p = "images/clear.png") \/
  (s = "Clouds" /\ p = "images/cloud.png") \/
  (s = "Rain" /\ p = "images/rain.png") \/
  (s = "Snow" /\ p = "images/snow.png").
Proof.
  intros Hp. assert (is_Some (images !! s)) as Hs by (by eexists).
  apply images_dom in Hs.
  repeat (apply elem_of_cons in Hs as [->|Hs]);
    [ | | | | by apply elem_of_nil in Hs];
    vm_compute in Hp; injection Hp as <-; tauto.
Qed.

(** C6: the icon lookup is a function of the category alone; its
    table has a key for exactly the four categories Clear, Clouds,
    Rain and Snow, and maps them to four different icon paths. *)
Theorem images_lookup_four :
  (forall (c : json) (p1 p2 : string),
     images_getitem c = Ok p1 -> images_getitem c = Ok p2 -> p1 = p2) /\
  (forall s : string,
     is_Some (images !! s) <-> s ∈ ["Clear"; "Clouds"; "Rain"; "Snow"]) /\
  (forall (c : json) (p : string),
     images_getitem c = Ok p <-> exists s, c = JStr s /\ images !! s = Some p) /\
  images_getitem (JStr "Clear") = Ok "images/clear.png" /\
  images_getitem (JStr "Clouds") = Ok "images/cloud.png" /\
  images_getitem (JStr "Rain") = Ok "images/rain.png" /\
  images_getitem (JStr "Snow") = Ok "images/snow.png" /\
  (forall s1 s2 p : string,
     images !! s1 = Some p -> images !! s2 = Some p -> s1 = s2).
Proof.
  split; [congruence|].
  split; [apply images_dom|].
  split.
  { intros c p. split.
    - destruct c as [| | | |s| |]; try (cbn; discriminate).
      unfold images_getitem.
      destruct (images !! s) as [q|] eqn:Hs; [|done].
      intros [= ->]. by exists s.
    - intros (s & -> & Hs). unfold images_getitem. by rewrite Hs. }
  do 4 (split; [by vm_compute|]).
  intros s1 s2 p H1 H2.
  apply images_cases in H1, H2.
  destruct H1 as [[-> ->]|[[-> ->]|[[-> ->]|[-> ->]]]];
    destruct H2 as [[-> H]|[[-> H]|[[-> H]|[-> H]]]];
    first [reflexivity | discriminate H].
Qed.

(** ** The page states *)

Lemma spec_ui_state_displaying (log : list event) :
  spec_ui_state log = DisplayingResult <-> List.filter is_HttpGet log <> [].
Proof.
  unfold spec_ui_state. induction log as [|ev log IH]; cbn; [done|].
  destruct (is_HttpGet ev); cbn; [done|]. exact IH.
Qed.

(** C7: with an empty place, whatever the number of days and the
    view, a run performs no GET and the page stays in [AwaitingPlace];
    a run reaches [DisplayingResult] exactly when the place is not
    empty. *)
Theorem empty_place_no_fetch (w : world) (api_key : option string)
    (days : Z) (option : string) :
  List.filter is_HttpGet (snd (main w api_key "" days option)) = [] /\
  spec_ui_state (snd (main w api_key "" days option)) = AwaitingPlace /\
  forall place : string,
    spec_ui_state (snd (main w api_key place days option)) = DisplayingResult
    <-> place <> "".
Proof.
  split; [reflexivity|]. split; [reflexivity|].
  intros place. rewrite spec_ui_state_displaying.
  destruct place as [|c place].
  - rewrite main_empty_place. cbn. tauto.
  - rewrite main_fetches_once by reflexivity. split; congruence.
Qed.

(** ** The credential *)

(** C8: the credential is the secret when the secrets store yields a
    non-empty one, and otherwise whatever the environment variable
    holds; when neither yields a value the credential is absent, and
    [get_data] still issues its GET, with [None] in the place of the
    key.  [get_data] reads the value fixed at import and consults
    neither source itself. *)
Theorem credential_resolution (getenv : option string) :
  (forall s : string, s <> "" -> API_KEY (SecretsValue (Some s)) getenv = Some s) /\
  API_KEY (SecretsValue (Some "")) getenv = getenv /\
  API_KEY (SecretsValue None) getenv = getenv /\
  API_KEY SecretsRaise getenv = getenv /\
  (forall (secrets : secrets_lookup) (w : world) (place : string) (days : Z),
     truthy_opt (_SECRET_API_KEY secrets) = false ->
     API_KEY secrets None = None /\
     snd (get_data w (API_KEY secrets None) place days)
     = [HttpGet ("http://api.openweathermap.org/data/2.5/forecast?q=" +:+ place
                   +:+ "&appid=None&units=metric")]).
Proof.
  split. { intros [|c s] Hs; [congruence|reflexivity]. }
  do 3 (split; [reflexivity|]).
  intros secrets w place days Hsecret.
  assert (API_KEY secrets None = None) as Hkey.
  { unfold API_KEY. by rewrite Hsecret. }
  split; [exact Hkey|]. rewrite Hkey. apply get_data_log.
Qed.

Lemma credential_resolution_witness :
  API_KEY (SecretsValue (Some "s3cr3t")) (Some "env") = Some "s3cr3t" /\
  snd (get_data Samples.unreachable (API_KEY SecretsRaise None) "Tokyo" 1)
  = [HttpGet "http://api.openweathermap.org/data/2.5/forecast?q=Tokyo&appid=None&units=metric"].
Proof.
  split.
  - apply (proj1 (credential_resolution (Some "env"))). discriminate.
  - apply (proj2 (proj2 (proj2 (proj2 (credential_resolution None))))
             SecretsRaise Samples.unreachable "Tokyo" 1).
    reflexivity.
Defined.

(** ** Sky mode under the handler *)

(** In Sky mode the rest of a run is the Sky branch under the
    handler. *)
Lemma main_sky (w : world) (api_key : option string) (place : string)
    (days : Z) (filtered_data : pyseq) :
  truthy_str place = true ->
  fst (get_data w api_key place days) = Ok filtered_data ->
  main w api_key place days "Sky"
  = (fst (try_except (sky_branch filtered_data) is_KeyError
            (fun _ => emit generic_error)),
     page_header "Sky" days place
       ++ HttpGet (forecast_url api_key place)
       :: snd (try_except (sky_branch filtered_data) is_KeyError
                 (fun _ => emit generic_error))).
Proof.
  intros Hplace Hfetch.
  rewrite (main_fetch_returns _ _ _ _ _ _ Hplace Hfetch).
  change (String.eqb "Sky" "Temperature") with false.
  change (String.eqb "Sky" "Sky") with true.
  unfold ret. rewrite bind_ok. cbn [app].
  by destruct (sky_branch filtered_data).
Qed.

(** An empty list of weather descriptors makes the extraction raise
    [IndexError]. *)
Lemma entry_sky_empty_weather (entry : json) :
  getitem_str entry "weather" = Ok (JArr []) ->
  entry_sky entry = Raise IndexError.
Proof. intros Hw. unfold entry_sky. by rewrite Hw. Qed.

(** A category without an icon makes the mapping raise [KeyError],
    whatever comes after it. *)
Lemma images_comprehension_unmapped (sky : list json) :
  forallb is_JStr sky = true ->
  existsb unmapped sky = true ->
  comprehension images_getitem sky = Raise KeyError.
Proof.
  induction sky as [|c sky IH]; cbn; [discriminate|].
  intros [Hc Hsky]%andb_prop Hex.
  destruct c as [| | | |s| |]; try discriminate Hc.
  unfold unmapped in Hex at 1. unfold images_getitem in *.
  destruct (images !! s) as [path|]; [|reflexivity].
  cbn in Hex. by rewrite (IH Hsky Hex).
Qed.

(** C10, as stated, fails: an empty list of weather descriptors
    somewhere in the window is not enough.  Here the first entry has no
    [weather] key at all; reading it raises [KeyError] before the entry
    with the empty list is reached, and the run completes with the
    generic message. *)
Lemma sky_empty_weather_after_missing_key :
  getitem_str Samples.p_bare "weather" = Ok (JArr []) /\
  fst (get_data (Cases.serving [Cases.no_weather_key; Samples.p_bare]) None "Tokyo" 1)
  = Ok (SeqList [Cases.no_weather_key; Samples.p_bare]) /\
  main (Cases.serving [Cases.no_weather_key; Samples.p_bare]) None "Tokyo" 1 "Sky"
  = (Ok tt,
     [StTitle "Weather Forcast For The Next Days";
      StSubheader "Sky for the next 1 days in Tokyo";
      HttpGet "http://api.openweathermap.org/data/2.5/forecast?q=Tokyo&appid=None&units=metric";
      StError "City not found. Please try again."]) /\
  fst (main (Cases.serving [Cases.no_weather_key; Samples.p_bare]) None "Tokyo" 1 "Sky")
  <> Raise IndexError.
Proof.
  vm_compute. repeat split. discriminate.
Qed.

(** C10, amended: in Sky mode, when every entry before some entry yields a
    category and that entry's list of weather descriptors is empty,
    [entry["weather"][0]] raises [IndexError]; the handler, which
    catches [KeyError] only, lets it leave the script, and no error
    message is shown.  Whenever the extraction returns for a whole
    window, no entry of the window has an empty descriptor list. *)
Theorem sky_empty_weather_uncaught (w : world) (api_key : option string)
    (place : string) (days : Z) (pre post : list json) (entry : json) :
  place <> "" ->
  fst (get_data w api_key place days) = Ok (SeqList (pre ++ entry :: post)) ->
  forallb has_sky pre = true ->
  getitem_str entry "weather" = Ok (JArr []) ->
  entry_sky entry = Raise IndexError /\
  is_KeyError IndexError = false /\
  main w api_key place days "Sky"
  = (Raise IndexError,
     page_header "Sky" days place ++ [HttpGet (forecast_url api_key place)]) /\
  List.filter is_StError (snd (main w api_key place days "Sky")) = [] /\
  (forall (window sky : list json),
     comprehension entry_sky window = Ok sky ->
     forall e : json, e ∈ window -> getitem_str e "weather" <> Ok (JArr [])).
Proof.
  intros Hplace%truthy_str_nonempty Hfetch Hpre Hempty.
  pose proof (entry_sky_empty_weather entry Hempty) as Hentry.
  assert (main w api_key place days "Sky"
          = (Raise IndexError,
             page_header "Sky" days place ++ [HttpGet (forecast_url api_key place)]))
    as Hmain.
  { rewrite (main_sky _ _ _ _ _ Hplace Hfetch), sky_branch_eq. cbn [iter_seq].
    by rewrite (comprehension_raise entry_sky pre post entry IndexError Hpre Hentry). }
  split; [exact Hentry|]. split; [reflexivity|]. split; [exact Hmain|].
  split; [by rewrite Hmain|].
  intros window sky Hsky e He Hw.
  apply comprehension_Forall2 in Hsky.
  apply list_elem_of_lookup in He as [i Hi].
  destruct (Forall2_lookup_l _ _ _ _ _ Hsky Hi) as (c & _ & Hc).
  rewrite (entry_sky_empty_weather e Hw) in Hc. discriminate.
Qed.

Lemma sky_empty_weather_uncaught_witness :
  main (Samples.answering 200 (Some (Samples.forecast_body [Samples.p0; Samples.p_bare; Samples.p1])))
       None "Tokyo" 1 "Sky"
  = (Raise IndexError,
     page_header "Sky" 1 "Tokyo" ++ [HttpGet (forecast_url None "Tokyo")]).
Proof.
  refine (proj1 (proj2 (proj2 (sky_empty_weather_uncaught
    (Samples.answering 200 (Some (Samples.forecast_body [Samples.p0; Samples.p_bare; Samples.p1])))
    None "Tokyo" 1 [Samples.p0] [Samples.p1] Samples.p_bare _ _ _ _)))).
  - discriminate.
  - vm_compute. reflexivity.
  - vm_compute. reflexivity.
  - vm_compute. reflexivity.
Defined.

(** C3, as stated, fails: a window with the category Mist makes the
    icon lookup raise [KeyError], and that exception does not leave
    the script; the handler of the request catches it and shows the
    generic message. *)
Lemma sky_unmapped_not_uncaught :
  fst (get_data Samples.mist_world None "Tokyo" 1)
  = Ok (SeqList [Samples.p0; Samples.p_mist]) /\
  comprehension entry_sky [Samples.p0; Samples.p_mist] = Ok [JStr "Clear"; JStr "Mist"] /\
  images !! "Mist" = None /\
  main Samples.mist_world None "Tokyo" 1 "Sky"
  = (Ok tt,
     [StTitle "Weather Forcast For The Next Days";
      StSubheader "Sky for the next 1 days in Tokyo";
      HttpGet "http://api.openweathermap.org/data/2.5/forecast?q=Tokyo&appid=None&units=metric";
      StError "City not found. Please try again."]) /\
  ~ (exists e : exn, fst (main Samples.mist_world None "Tokyo" 1 "Sky") = Raise e).
Proof.
  vm_compute. repeat split. intros [e He]. discriminate He.
Qed.

(** C3, amended: in Sky mode, for a window whose entries all yield a
    category string, one of which has no icon in the table, the icon
    lookup raises [KeyError]; the Sky step ends there, no image grid is
    shown (no entry is dropped and none gets a partial or null icon),
    and the handler of the request catches the failure and shows the
    generic error message. *)
Theorem sky_unmapped_category_caught (w : world) (api_key : option string)
    (place : string) (days : Z) (window sky : list json) :
  place <> "" ->
  fst (get_data w api_key place days) = Ok (SeqList window) ->
  comprehension entry_sky window = Ok sky ->
  forallb is_JStr sky = true ->
  existsb unmapped sky = true ->
  comprehension images_getitem sky = Raise KeyError /\
  sky_branch (SeqList window) = (Raise KeyError, []) /\
  main w api_key place days "Sky"
  = (Ok tt,
     page_header "Sky" days place
       ++ [HttpGet (forecast_url api_key place); generic_error]) /\
  List.filter is_StImage (snd (main w api_key place days "Sky")) = [].
Proof.
  intros Hplace%truthy_str_nonempty Hfetch Hsky Hstr Hunmapped.
  pose proof (images_comprehension_unmapped sky Hstr Hunmapped) as Himages.
  assert (sky_branch (SeqList window) = (Raise KeyError, [])) as Hbranch.
  { rewrite sky_branch_eq. cbn [iter_seq]. by rewrite Hsky, Himages. }
  assert (main w api_key place days "Sky"
          = (Ok tt,
             page_header "Sky" days place
               ++ [HttpGet (forecast_url api_key place); generic_error]))
    as Hmain.
  { rewrite (main_sky _ _ _ _ _ Hplace Hfetch), Hbranch. reflexivity. }
  split; [exact Himages|]. split; [exact Hbranch|]. split; [exact Hmain|].
  by rewrite Hmain.
Qed.

Lemma sky_unmapped_category_caught_witness :
  main (Samples.answering 200 (Some (Samples.forecast_body [Samples.p0; Samples.p_mist; Samples.p2])))
       (Some "k") "Tokyo" 1 "Sky"
  = (Ok tt,
     page_header "Sky" 1 "Tokyo"
       ++ [HttpGet (forecast_url (Some "k") "Tokyo"); generic_error]).
Proof.
  refine (proj1 (proj2 (proj2 (sky_unmapped_category_caught
    (Samples.answering 200 (Some (Samples.forecast_body [Samples.p0; Samples.p_mist; Samples.p2])))
    (Some "k") "Tokyo" 1 [Samples.p0; Samples.p_mist; Samples.p2]
    [JStr "Clear"; JStr "Mist"; JStr "Rain"] _ _ _ _ _)))).
  - discriminate.
  - vm_compute. reflexivity.
  - vm_compute. reflexivity.
  - reflexivity.
  - vm_compute. reflexivity.
Defined.

(** ** Failures of the fetch *)

(** C4, as stated, fails for a non-2xx response: [get_data] never
    looks at the status, so a 404 whose body carries a list is
    returned like any other response. *)
Lemma get_data_ignores_status :
  requests_get Samples.listed_404_world (forecast_url None "Tokyo")
  = Responded {| status_code := 404;
                 body_json := Some (Samples.forecast_body [Samples.p0]) |} /\
  get_data Samples.listed_404_world None "Tokyo" 1
  = (Ok (SeqList [Samples.p0]),
     [HttpGet "http://api.openweathermap.org/data/2.5/forecast?q=Tokyo&appid=None&units=metric"]) /\
  ~ (exists e : exn, fst (get_data Samples.listed_404_world None "Tokyo" 1) = Raise e).
Proof.
  vm_compute. repeat split. intros [e He]. discriminate He.
Qed.

(** [slice_to] reads the world for the interpreter version only. *)
Lemma slice_to_ext (w w' : world) (v : json) (n : Z) :
  slices_hashable w' = slices_hashable w -> slice_to w' v n = slice_to w v n.
Proof. intros Hv. destruct v; cbn; try reflexivity. by rewrite Hv. Qed.

(** C4, amended: [get_data] raises, and returns nothing, when
    [requests.get] fails in transport, when the body is not JSON, and
    when the body is a JSON object without the key [list]; the last is
    a [KeyError], which a run with a place shows as the generic error
    message.  Whenever [get_data] returns, its value is the slice of
    the body's [list] value, never a partial result.  The HTTP status
    is not looked at: two responses with the same body give the same
    outcome, so a non-2xx response raises only through its body. *)
Theorem get_data_failures (w : world) (api_key : option string)
    (place : string) (days : Z) :
  let url := forecast_url api_key place in
  (requests_get w url = TransportError ->
   get_data w api_key place days = (Raise RequestException, [HttpGet url])) /\
  (forall r : response,
     requests_get w url = Responded r -> body_json r = None ->
     get_data w api_key place days = (Raise JSONDecodeError, [HttpGet url])) /\
  (forall (r : response) (m : gmap string json),
     requests_get w url = Responded r -> body_json r = Some (JObj m) ->
     m !! "list" = None ->
     get_data w api_key place days = (Raise KeyError, [HttpGet url]) /\
     (place <> "" ->
      forall option : string,
        main w api_key place days option
        = (Ok tt, page_header option days place ++ [HttpGet url; generic_error]))) /\
  (forall window : pyseq,
     fst (get_data w api_key place days) = Ok window ->
     exists (r : response) (data v : json),
       requests_get w url = Responded r /\ body_json r = Some data /\
       getitem_str data "list" = Ok v /\ slice_to w v (8 * days) = Ok window) /\
  (forall (w' : world) (r r' : response),
     slices_hashable w' = slices_hashable w ->
     requests_get w url = Responded r -> requests_get w' url = Responded r' ->
     body_json r' = body_json r ->
     get_data w' api_key place days = get_data w api_key place days).
Proof.
  intros url. subst url.
  split; [|split; [|split; [|split]]].
  - intros Hget. apply get_data_eq. by rewrite get_data_result, Hget.
  - intros r Hget Hbody. apply get_data_eq. rewrite get_data_result, Hget.
    unfold response_json. by rewrite Hbody.
  - intros r m Hget Hbody Hlist.
    assert (fst (get_data w api_key place days) = Raise KeyError) as Hfetch.
    { rewrite get_data_result, Hget. unfold response_json. rewrite Hbody. cbn.
      by rewrite Hlist. }
    split; [by apply get_data_eq|].
    intros Hplace%truthy_str_nonempty option.
    by rewrite (main_fetch_raises _ _ _ _ option _ Hplace Hfetch).
  - intros window. rewrite get_data_result.
    destruct (requests_get w _) as [|r] eqn:Hget; [done|].
    unfold response_json. destruct (body_json r) as [data|] eqn:Hbody; [|done].
    cbn. destruct (getitem_str data "list") as [v|] eqn:Hlist; [|done].
    cbn. intros Hslice. by exists r, data, v.
  - intros w' r r' Hver Hget Hget' Hbody.
    rewrite (get_data_eq w' api_key place days _ eq_refl).
    rewrite (get_data_eq w api_key place days _ eq_refl).
    f_equal. rewrite !get_data_result, Hget, Hget'.
    unfold response_json. rewrite Hbody.
    destruct (body_json r) as [data|]; [|reflexivity]. cbn.
    destruct (getitem_str data "list") as [v|]; [|reflexivity]. cbn.
    by apply slice_to_ext.
Qed.

Lemma get_data_failures_witness :
  get_data (Samples.answering 404 (Some Samples.not_found_body)) (Some "k") "Atlantis" 2
  = (Raise KeyError, [HttpGet (forecast_url (Some "k") "Atlantis")]) /\
  main (Samples.answering 404 (Some Samples.not_found_body)) (Some "k") "Atlantis" 2 "Sky"
  = (Ok tt,
     page_header "Sky" 2 "Atlantis"
       ++ [HttpGet (forecast_url (Some "k") "Atlantis"); generic_error]).
Proof.
  pose proof (proj1 (proj2 (proj2 (get_data_failures
    (Samples.answering 404 (Some Samples.not_found_body)) (Some "k") "Atlantis" 2)))
    {| status_code := 404; body_json := Some Samples.not_found_body |}
    _ eq_refl eq_refl eq_refl) as [Hraise Hshown].
  split; [exact Hraise|]. apply Hshown. discriminate.
Defined.

(** ** What the handler lets through *)

(** A transport failure leaves the script: the handler is for
    [KeyError] and what [requests.get] raises is not one. *)
Lemma main_transport_error (w : world) (api_key : option string) (place : string)
    (days : Z) (option : string) :
  place <> "" ->
  requests_get w (forecast_url api_key place) = TransportError ->
  main w api_key place days option
  = (Raise RequestException,
     page_header option days place ++ [HttpGet (forecast_url api_key place)]).
Proof.
  intros Hplace%truthy_str_nonempty Hget.
  assert (fst (get_data w api_key place days) = Raise RequestException) as Hfetch
    by (by rewrite get_data_result, Hget).
  by rewrite (main_fetch_raises _ _ _ _ option _ Hplace Hfetch).
Qed.

(** C2: the run at which the claim fails.  With the network down,
    [requests.get] raises; the exception is not a [KeyError], so it
    leaves the script and no error message is shown. *)
Theorem transport_failure_uncaught :
  main Samples.unreachable (Some "k") "Tokyo" 1 "Temperature"
  = (Raise RequestException,
     [StTitle "Weather Forcast For The Next Days";
      StSubheader "Temperature for the next 1 days in Tokyo";
      HttpGet "http://api.openweathermap.org/data/2.5/forecast?q=Tokyo&appid=k&units=metric"]) /\
  List.filter is_StError
    (snd (main Samples.unreachable (Some "k") "Tokyo" 1 "Temperature")) = [].
Proof.
  rewrite (main_transport_error Samples.unreachable (Some "k") "Tokyo" 1 "Temperature")
    by (discriminate || reflexivity).
  split; reflexivity.
Qed.

(** ** Runs on sample data *)

(** A Temperature run: the chart gets the time texts and the
    temperatures of the three entries, in the provider's order. *)
Example main_temperature_run :
  main (Samples.answering 200
          (Some (Samples.forecast_body [Samples.p0; Samples.p1; Samples.p2])))
       (Some "k") "Tokyo" 3 "Temperature"
  = (Ok tt,
     [StTitle "Weather Forcast For The Next Days";
      StSubheader "Temperature for the next 3 days in Tokyo";
      HttpGet "http://api.openweathermap.org/data/2.5/forecast?q=Tokyo&appid=k&units=metric";
      StPlotlyChart
        [JStr "2025-09-18 00:00:00"; JStr "2025-09-18 03:00:00"; JStr "2025-09-18 06:00:00"]
        [JFloat 21.5; JFloat 20.25; JFloat 19]]).
Proof. vm_compute. reflexivity. Qed.

(** A Sky run over the three mapped categories. *)
Example main_sky_run :
  main (Samples.answering 200
          (Some (Samples.forecast_body [Samples.p0; Samples.p1; Samples.p2])))
       (Some "k") "Tokyo" 3 "Sky"
  = (Ok tt,
     [StTitle "Weather Forcast For The Next Days";
      StSubheader "Sky for the next 3 days in Tokyo";
      HttpGet "http://api.openweathermap.org/data/2.5/forecast?q=Tokyo&appid=k&units=metric";
      StImage ["images/clear.png"; "images/cloud.png"; "images/rain.png"] 115
        [JStr "2025-09-18 00:00:00"; JStr "2025-09-18 03:00:00"; JStr "2025-09-18 06:00:00"]]).
Proof. vm_compute. reflexivity. Qed.

(** The provider's payload for an unknown place: the generic message. *)
Example main_not_found_run :
  main (Samples.answering 404 (Some Samples.not_found_body)) (Some "k") "Atlantis" 1 "Temperature"
  = (Ok tt,
     [StTitle "Weather Forcast For The Next Days";
      StSubheader "Temperature for the next 1 days in Atlantis";
      HttpGet "http://api.openweathermap.org/data/2.5/forecast?q=Atlantis&appid=k&units=metric";
      StError "City not found. Please try again."]).
Proof. vm_compute. reflexivity. Qed.

(** A body that is not JSON, and a JSON body that is not an object:
    neither exception is a [KeyError], so both leave the script. *)
Example main_not_json_run :
  fst (main (Samples.answering 502 None) (Some "k") "Tokyo" 1 "Sky") = Raise JSONDecodeError /\
  fst (main (Samples.answering 200 (Some (JArr []))) (Some "k") "Tokyo" 1 "Sky") = Raise TypeError.
Proof. split; reflexivity. Qed.

(** Slices with a bound that is zero or negative. *)
Example slice_to_bounds :
  slice_to Samples.unreachable (JArr [Samples.p0; Samples.p1; Samples.p2]) 0 = Ok (SeqList []) /\
  slice_to Samples.unreachable (JArr [Samples.p0; Samples.p1; Samples.p2]) (-8) = Ok (SeqList []) /\
  slice_to Samples.unreachable (JArr [Samples.p0; Samples.p1; Samples.p2]) (-1)
  = Ok (SeqList [Samples.p0; Samples.p1]).
Proof. repeat split. Qed.


(** * Further properties of the code *)

(** ** [get_data] outside the range of the slider *)

Lemma slice_stop_le (len : nat) (n : Z) :
  n < 0 -> (slice_stop len n <= len)%nat.
Proof.
  intros Hn. unfold slice_stop.
  destruct (Z.ltb_spec n 0); lia.
Qed.

(** X1: [get_data] does not check [forcast_days].  For any number of
    days, when the provider answers with a forecast list, the result
    is a prefix of that list: its first [8 * days] entries (as many as
    there are) when [days] is not negative, so none for [days = 0];
    and for a negative [days] the list without its last [8 * |days|]
    entries. *)
Theorem get_data_any_days (w : world) (api_key : option string) (place : string)
    (days : Z) (r : response) (m : gmap string json) (l : list json) :
  requests_get w (forecast_url api_key place) = Responded r ->
  body_json r = Some (JObj m) ->
  m !! "list" = Some (JArr l) ->
  exists window rest : list json,
    get_data w api_key place days
    = (Ok (SeqList window), [HttpGet (forecast_url api_key place)]) /\
    l = window ++ rest /\
    (0 <= days -> Z.of_nat (length window) = Z.min (Z.of_nat (length l)) (8 * days)) /\
    (days < 0 -> Z.of_nat (length window) = Z.max 0 (Z.of_nat (length l) + 8 * days)).
Proof.
  intros Hget Hbody Hlist.
  exists (take (slice_stop (length l) (8 * days)) l),
         (drop (slice_stop (length l) (8 * days)) l).
  split; [|split; [|split]].
  - apply get_data_eq. rewrite get_data_result, Hget.
    unfold response_json. rewrite Hbody. cbn. by rewrite Hlist.
  - by rewrite take_drop.
  - intros Hdays. rewrite length_take, slice_stop_nonneg by lia. lia.
  - intros Hdays. rewrite length_take.
    pose proof (slice_stop_le (length l) (8 * days)) as Hle.
    unfold slice_stop in *. destruct (Z.ltb_spec (8 * days) 0); lia.
Qed.

Lemma get_data_any_days_witness :
  exists window rest : list json,
    get_data (Cases.serving (Samples.series 10)) None "Tokyo" (-1)
    = (Ok (SeqList window), [HttpGet (forecast_url None "Tokyo")]) /\
    Samples.series 10 = window ++ rest /\
    (0 <= -1 -> Z.of_nat (length window) = Z.min (Z.of_nat (length (Samples.series 10))) (8 * -1)) /\
    (-1 < 0 -> Z.of_nat (length window) = Z.max 0 (Z.of_nat (length (Samples.series 10)) + 8 * -1)).
Proof.
  refine (get_data_any_days (Cases.serving (Samples.series 10)) None "Tokyo" (-1)
            _ _ (Samples.series 10) _ _ _).
  - reflexivity.
  - reflexivity.
  - vm_compute. reflexivity.
Defined.

(** ** When [get_data] returns and when it raises *)

(** X2: [get_data] returns exactly when the network answers with a
    JSON object whose [list] value is a list or a string; in every
    other case it raises. *)
Theorem get_data_returns_iff (w : world) (api_key : option string)
    (place : string) (days : Z) :
  (exists window : pyseq, fst (get_data w api_key place days) = Ok window)
  <->
  (exists (r : response) (m : gmap string json) (v : json),
     requests_get w (forecast_url api_key place) = Responded r /\
     body_json r = Some (JObj m) /\
     m !! "list" = Some v /\
     ((exists l : list json, v = JArr l) \/ (exists s : string, v = JStr s))).
Proof.
  rewrite get_data_result. split.
  - intros [window Hret].
    destruct (requests_get w _) as [|r]; [done|].
    unfold response_json in Hret.
    destruct (body_json r) as [data|] eqn:Hbody; [|done].
    cbn in Hret. destruct data as [| | | | | |m]; try done.
    cbn in Hret. destruct (m !! "list") as [v|] eqn:Hlist; [|done].
    exists r, m, v. repeat split; try done.
    cbn in Hret. destruct v; try done; [right|left]; by eexists.
  - intros (r & m & v & -> & Hbody & Hlist & Hv).
    unfold response_json. rewrite Hbody. cbn. rewrite Hlist. cbn.
    destruct Hv as [[l ->]|[s ->]]; cbn; by eexists.
Qed.

(** X3: the exceptions of [get_data].  It raises the transport
    exception exactly when [requests.get] fails, the decoding error
    exactly when the body is not JSON, [KeyError] when the body is an
    object without the key [list], [TypeError] when the body is JSON
    but not an object; it never raises [IndexError]. *)
Theorem get_data_exceptions (w : world) (api_key : option string)
    (place : string) (days : Z) :
  let url := forecast_url api_key place in
  (fst (get_data w api_key place days) = Raise RequestException
   <-> requests_get w url = TransportError) /\
  (fst (get_data w api_key place days) = Raise JSONDecodeError
   <-> exists r : response, requests_get w url = Responded r /\ body_json r = None) /\
  (forall (r : response) (m : gmap string json),
     requests_get w url = Responded r -> body_json r = Some (JObj m) ->
     m !! "list" = None ->
     fst (get_data w api_key place days) = Raise KeyError) /\
  (forall (r : response) (data : json),
     requests_get w url = Responded r -> body_json r = Some data ->
     (forall m : gmap string json, data <> JObj m) ->
     fst (get_data w api_key place days) = Raise TypeError) /\
  fst (get_data w api_key place days) <> Raise IndexError.
Proof.
  intros url. subst url. rewrite get_data_result.
  destruct (requests_get w _) as [|r] eqn:Hget.
  { split; [done|]. split; [|done]. split; [done|]. by intros (r & ? & _). }
  unfold response_json.
  destruct (body_json r) as [data|] eqn:Hbody; cbn.
  - split; [|split; [|split; [|split]]].
    + split; [|done]. destruct data as [| | | | | |m]; try done.
      cbn. destruct (m !! "list") as [v|]; [|done].
      cbn. destruct v; try done. cbn. by destruct (slices_hashable w).
    + split.
      * destruct data as [| | | | | |m]; try done.
        cbn. destruct (m !! "list") as [v|]; [|done].
        cbn. destruct v; try done. cbn. by destruct (slices_hashable w).
      * intros (r' & [= <-] & Hnone). congruence.
    + intros r' m [= <-] Hm Hlist. rewrite Hbody in Hm. injection Hm as ->.
      cbn. by rewrite Hlist.
    + intros r' data' [= <-] Hd Hnot. rewrite Hbody in Hd. injection Hd as <-.
      destruct data as [| | | | | |m]; try done. by destruct (Hnot m).
    + destruct data as [| | | | | |m]; try done.
      cbn. destruct (m !! "list") as [v|]; [|done].
      cbn. destruct v; try done. cbn. by destruct (slices_hashable w).
  - split; [done|]. split; [split; [by exists r|done]|].
    split; [intros r' m [= <-]; congruence|].
    split; [intros r' data [= <-]; congruence|done].
Qed.

Lemma get_data_exceptions_witness :
  fst (get_data (Samples.answering 404 (Some Samples.not_found_body)) None "Atlantis" 1)
  = Raise KeyError /\
  fst (get_data (Samples.answering 200 (Some (JArr []))) None "Tokyo" 1) = Raise TypeError.
Proof.
  split.
  - refine (proj1 (proj2 (proj2 (get_data_exceptions
      (Samples.answering 404 (Some Samples.not_found_body)) None "Atlantis" 1)))
      _ _ eq_refl eq_refl _).
    vm_compute. reflexivity.
  - refine (proj1 (proj2 (proj2 (proj2 (get_data_exceptions
      (Samples.answering 200 (Some (JArr []))) None "Tokyo" 1))))
      _ _ eq_refl eq_refl _).
    discriminate.
Defined.

(** ** The outcomes of a run *)

Lemma bind_ret_unit (m : M unit) : bind m (fun _ => ret tt) = m.
Proof.
  destruct m as [[[]|e] log]; cbn; [|reflexivity].
  by rewrite app_nil_r.
Qed.

(** In Temperature mode the rest of a run is the Temperature branch
    under the handler. *)
Lemma main_temperature (w : world) (api_key : option string) (place : string)
    (days : Z) (filtered_data : pyseq) :
  truthy_str place = true ->
  fst (get_data w api_key place days) = Ok filtered_data ->
  main w api_key place days "Temperature"
  = (fst (try_except (temperature_branch w filtered_data) is_KeyError
            (fun _ => emit generic_error)),
     page_header "Temperature" days place
       ++ HttpGet (forecast_url api_key place)
       :: snd (try_except (temperature_branch w filtered_data) is_KeyError
                 (fun _ => emit generic_error))).
Proof.
  intros Hplace Hfetch.
  rewrite (main_fetch_returns _ _ _ _ _ _ Hplace Hfetch).
  change (String.eqb "Temperature" "Temperature") with true.
  change (String.eqb "Temperature" "Sky") with false.
  cbv zeta. by rewrite bind_ret_unit.
Qed.

Ltac pick_render_case :=
  first
    [ left; split; [reflexivity|]; eexists _, _; reflexivity
    | right; left; split; [reflexivity|]; eexists _, _; reflexivity
    | right; right; left; reflexivity
    | right; right; right; left; eexists; split; [|reflexivity]; reflexivity
    | right; right; right; right; repeat split; assumption ].

(** What follows the fetch ends in one of five ways. *)
Lemma render_cases (w : world) (option : string) (filtered_data : pyseq) :
  let rest :=
    try_except
      (do! (if String.eqb option "Temperature"
            then temperature_branch w filtered_data
            else ret tt) in
       if String.eqb option "Sky"
       then sky_branch filtered_data
       else ret tt)
      is_KeyError
      (fun _ => emit generic_error) in
  (option = "Temperature" /\
   exists dates temperature, rest = (Ok tt, [StPlotlyChart dates temperature])) \/
  (option = "Sky" /\
   exists image_paths caption, rest = (Ok tt, [StImage image_paths 115 caption])) \/
  rest = (Ok tt, [generic_error]) \/
  (exists e, is_KeyError e = false /\ rest = (Raise e, [])) \/
  (option <> "Temperature" /\ option <> "Sky" /\ rest = (Ok tt, [])).
Proof.
  intros rest. subst rest.
  destruct (String.eqb_spec option "Temperature") as [->|HnotT].
  - change (String.eqb "Temperature" "Sky") with false.
    rewrite bind_ret_unit, temperature_branch_eq.
    repeat case_outcome; cbn; pick_render_case.
  - destruct (String.eqb_spec option "Sky") as [->|HnotS].
    + unfold ret. rewrite bind_ok. cbn [app].
      rewrite <- surjective_pairing, sky_branch_eq.
      repeat case_outcome; cbn; pick_render_case.
    + cbn. pick_render_case.
Qed.

(** X4: no [KeyError] ever leaves the page script: whatever the
    inputs and whatever the network answers, a run either completes
    or ends in an exception of another class. *)
Theorem main_never_raises_KeyError (w : world) (api_key : option string)
    (place : string) (days : Z) (option : string) :
  fst (main w api_key place days option) <> Raise KeyError.
Proof.
  destruct place as [|c place]; [by rewrite main_empty_place|].
  destruct (fst (get_data w api_key (String c place) days)) as [fd|e] eqn:Hfetch.
  - rewrite (main_fetch_returns w api_key (String c place) days option fd
               eq_refl Hfetch). cbn [fst].
    destruct (render_cases w option fd)
      as [(_ & ? & ? & ->)|[(_ & ? & ? & ->)|[->|[(e & He & ->)|(_ & _ & ->)]]]];
      cbn; try done.
    intros [= ->]. discriminate He.
  - rewrite (main_fetch_raises w api_key (String c place) days option e
               eq_refl Hfetch).
    destruct e; cbn; done.
Qed.

(** X5: the effects of a run with a place are the header, the GET,
    and then at most one more: the chart, the image grid or the
    generic error message.  A run that ends in an exception shows none
    of the three; a run that completes in Temperature or Sky mode
    shows exactly one, and a chart only in Temperature mode, an image
    grid only in Sky mode. *)
Theorem main_run_shape (w : world) (api_key : option string)
    (place : string) (days : Z) (option : string) :
  place <> "" ->
  exists outs : list event,
    snd (main w api_key place days option)
    = page_header option days place ++ HttpGet (forecast_url api_key place) :: outs /\
    (length outs <= 1)%nat /\
    (forall e : exn, fst (main w api_key place days option) = Raise e -> outs = []) /\
    (forall ev : event, ev ∈ outs ->
       ev = generic_error \/
       (option = "Temperature" /\ exists dates temperature, ev = StPlotlyChart dates temperature) \/
       (option = "Sky" /\ exists image_paths caption, ev = StImage image_paths 115 caption)) /\
    (fst (main w api_key place days option) = Ok tt ->
     option = "Temperature" \/ option = "Sky" -> length outs = 1%nat).
Proof.
  intros Hplace%truthy_str_nonempty.
  destruct (fst (get_data w api_key place days)) as [fd|e] eqn:Hfetch.
  - rewrite (main_fetch_returns _ _ _ _ _ _ Hplace Hfetch). cbn [fst snd].
    destruct (render_cases w option fd)
      as [(Ht & d & t & ->)|[(Hs & p & c & ->)|[->|[(e & He & ->)|(HnT & HnS & ->)]]]];
      cbn [fst snd]; eexists; (split; [reflexivity|]); cbn.
    + repeat split; [lia|done|].
      intros ev ->%list_elem_of_singleton. naive_solver.
    + repeat split; [lia|done|].
      intros ev ->%list_elem_of_singleton. naive_solver.
    + repeat split; [lia|done|].
      intros ev ->%list_elem_of_singleton. naive_solver.
    + repeat split; [lia| |done].
      intros ev Hev. by apply elem_of_nil in Hev.
    + repeat split; [lia| |intros _ [HT|HS]; [by destruct HnT|by destruct HnS]].
      intros ev Hev. by apply elem_of_nil in Hev.
  - rewrite (main_fetch_raises _ _ _ _ _ _ Hplace Hfetch).
    destruct (is_KeyError e); cbn [fst snd]; eexists;
      (split; [unfold page_header; cbn [app]; reflexivity|]); cbn.
    + repeat split; [lia|done|].
      intros ev ->%list_elem_of_singleton. naive_solver.
    + repeat split; [lia| |done].
      intros ev Hev. by apply elem_of_nil in Hev.
Qed.

Lemma main_run_shape_witness :
  exists outs : list event,
    snd (main Samples.mist_world None "Tokyo" 1 "Sky")
    = page_header "Sky" 1 "Tokyo" ++ HttpGet (forecast_url None "Tokyo") :: outs /\
    (length outs <= 1)%nat.
Proof.
  destruct (main_run_shape Samples.mist_world None "Tokyo" 1 "Sky")
    as (outs & Hlog & Hlen & _).
  - discriminate.
  - exists outs. split; [exact Hlog|exact Hlen].
Defined.

(** ** Sky mode when every entry has an icon *)






(** ** The first entry that cannot be read *)

(** X7: in Sky mode the first entry whose category cannot be read
    decides the run.  When reading it raises [KeyError] (the entry has
    no [weather] key, or its first descriptor has no [main] key) the
    run completes with the generic error message; any other exception
    leaves the script.  In both cases no image grid is shown. *)
Theorem sky_first_failure (w : world) (api_key : option string)
    (place : string) (days : Z) (pre post : list json) (entry : json) (e : exn) :
  place <> "" ->
  fst (get_data w api_key place days) = Ok (SeqList (pre ++ entry :: post)) ->
  forallb has_sky pre = true ->
  entry_sky entry = Raise e ->
  main w api_key place days "Sky"
  = if is_KeyError e
    then (Ok tt,
          page_header "Sky" days place
            ++ [HttpGet (forecast_url api_key place); generic_error])
    else (Raise e,
          page_header "Sky" days place ++ [HttpGet (forecast_url api_key place)]).
Proof.
  intros Hplace%truthy_str_nonempty Hfetch Hpre Hentry.
  rewrite (main_sky _ _ _ _ _ Hplace Hfetch), sky_branch_eq. cbn [iter_seq].
  rewrite (comprehension_raise entry_sky pre post entry e Hpre Hentry).
  cbn. by destruct (is_KeyError e).
Qed.

Lemma sky_first_failure_witness :
  main (Cases.serving [Samples.p0; Cases.no_weather_key; Samples.p1])
       None "Tokyo" 1 "Sky"
  = (Ok tt,
     page_header "Sky" 1 "Tokyo"
       ++ [HttpGet (forecast_url None "Tokyo"); generic_error]).
Proof.
  refine (sky_first_failure
    (Cases.serving [Samples.p0; Cases.no_weather_key; Samples.p1])
    None "Tokyo" 1 [Samples.p0] [Samples.p1] Cases.no_weather_key KeyError _ _ _ _).
  - discriminate.
  - vm_compute. reflexivity.
  - vm_compute. reflexivity.
  - vm_compute. reflexivity.
Defined.

(** X8: in Temperature mode the temperatures are read before the
    time texts, and the first entry whose temperature cannot be read
    decides the run.  When reading it raises [KeyError] (the entry has
    no [main] key, or [main] has no [temp] key) the run completes with
    the generic error message; any other exception (an entry that is
    not an object) leaves the script.  In both cases no chart is
    shown. *)
Theorem temperature_first_failure (w : world) (api_key : option string)
    (place : string) (days : Z) (pre post : list json) (entry : json) (e : exn) :
  place <> "" ->
  fst (get_data w api_key place days) = Ok (SeqList (pre ++ entry :: post)) ->
  forallb (fun x => is_ok (entry_temp x)) pre = true ->
  entry_temp entry = Raise e ->
  main w api_key place days "Temperature"
  = if is_KeyError e
    then (Ok tt,
          page_header "Temperature" days place
            ++ [HttpGet (forecast_url api_key place); generic_error])
    else (Raise e,
          page_header "Temperature" days place
            ++ [HttpGet (forecast_url api_key place)]).
Proof.
  intros Hplace%truthy_str_nonempty Hfetch Hpre Hentry.
  rewrite (main_temperature _ _ _ _ _ Hplace Hfetch), temperature_branch_eq.
  cbn [iter_seq].
  rewrite (comprehension_raise entry_temp pre post entry e Hpre Hentry).
  cbn. by destruct (is_KeyError e).
Qed.

Lemma temperature_first_failure_witness :
  main (Cases.serving [Samples.p0; Cases.not_an_object; Cases.no_main])
       None "Tokyo" 1 "Temperature"
  = (Raise TypeError,
     page_header "Temperature" 1 "Tokyo" ++ [HttpGet (forecast_url None "Tokyo")]).
Proof.
  refine (temperature_first_failure
    (Cases.serving [Samples.p0; Cases.not_an_object; Cases.no_main])
    None "Tokyo" 1 [Samples.p0] [Cases.no_main] Cases.not_an_object TypeError _ _ _ _).
  - discriminate.
  - vm_compute. reflexivity.
  - vm_compute. reflexivity.
  - reflexivity.
Defined.

(** ** From the provider's list to the chart *)

(** A figure that [px.line] builds holds the two sequences it was
    given. *)
Lemma px_line_ok (w : world) (x y : list json) (fig : figure) :
  px_line w x y = Ok fig -> fig = {| figure_x := x; figure_y := y |}.
Proof.
  unfold px_line.
  destruct x, y; try discriminate;
    destruct (plotly_express_line w _ _); try discriminate; by intros [= <-].
Qed.

Lemma temperature_branch_ok (w : world) (window : list json) :
  forallb temperature_point window = true ->
  exists temperature dates : list json,
    temperature_branch w (SeqList window)
    = match px_line w dates temperature with
      | Ok _ => (Ok tt, [StPlotlyChart dates temperature])
      | Raise e => (Raise e, [])
      end /\
    Forall2 (fun x y => entry_temp x = Ok y) window temperature /\
    Forall2 (fun x y => entry_dt_txt x = Ok y) window dates.
Proof.
  intros Hwf.
  destruct (temperature_points_readable window Hwf) as [Htemp Hdate].
  destruct (comprehension_total entry_temp window Htemp) as [temperature Ht].
  destruct (comprehension_total entry_dt_txt window Hdate) as [dates Hd].
  exists temperature, dates.
  rewrite temperature_branch_eq. cbn [iter_seq]. rewrite Ht, Hd.
  rewrite <- !comprehension_Forall2. split; [|done].
  destruct (px_line w dates temperature) as [fig|] eqn:Hfig; [|done].
  by rewrite (px_line_ok _ _ _ _ Hfig).
Qed.

(** X9: a whole Temperature run.  When the provider answers with a
    forecast list and [days] is not negative, only the first
    [8 * days] entries are read: if those are forecast points,
    [px.line] is called with exactly [min (number of samples, 8 * days)]
    dates and temperatures, position [i] holding the [dt_txt] and the
    [main.temp] of entry [i] of the provider's list, whatever the later
    entries look like.  The run then ends as [px.line] does: with the
    chart of these sequences when it builds the figure (which it can
    only do for a list that is not empty and [days > 0]), with the
    generic message when it raises [KeyError], and in its exception
    otherwise. *)
Theorem temperature_run (w : world) (api_key : option string) (place : string)
    (days : Z) (r : response) (m : gmap string json) (l : list json) :
  place <> "" ->
  0 <= days ->
  requests_get w (forecast_url api_key place) = Responded r ->
  body_json r = Some (JObj m) ->
  m !! "list" = Some (JArr l) ->
  forallb temperature_point (take (Z.to_nat (8 * days)) l) = true ->
  exists temperature dates : list json,
    Z.of_nat (length dates) = Z.min (Z.of_nat (length l)) (8 * days) /\
    length temperature = length dates /\
    (forall (i : nat) (entry : json),
       Z.of_nat i < 8 * days ->
       l !! i = Some entry ->
       exists (mi mm : gmap string json) (d t : json),
         entry = JObj mi /\ mi !! "dt_txt" = Some d /\
         mi !! "main" = Some (JObj mm) /\ mm !! "temp" = Some t /\
         dates !! i = Some d /\ temperature !! i = Some t) /\
    main w api_key place days "Temperature"
    = match px_line w dates temperature with
      | Ok _ =>
          (Ok tt,
           page_header "Temperature" days place
             ++ [HttpGet (forecast_url api_key place); StPlotlyChart dates temperature])
      | Raise e =>
          if is_KeyError e
          then (Ok tt,
                page_header "Temperature" days place
                  ++ [HttpGet (forecast_url api_key place); generic_error])
          else (Raise e,
                page_header "Temperature" days place
                  ++ [HttpGet (forecast_url api_key place)])
      end /\
    (l <> [] -> 0 < days -> plotly_express_line w dates temperature = None ->
     main w api_key place days "Temperature"
     = (Ok tt,
        page_header "Temperature" days place
          ++ [HttpGet (forecast_url api_key place); StPlotlyChart dates temperature])).
Proof.
  intros Hplace%truthy_str_nonempty Hdays Hget Hbody Hlist Hwf.
  assert (fst (get_data w api_key place days)
          = Ok (SeqList (take (Z.to_nat (8 * days)) l))) as Hfetch.
  { rewrite get_data_result, Hget. unfold response_json. rewrite Hbody. cbn.
    rewrite Hlist. cbn. by rewrite slice_stop_nonneg by lia. }
  destruct (temperature_branch_ok w _ Hwf) as (temperature & dates & Hbranch & Ht & Hd).
  exists temperature, dates.
  pose proof (Forall2_length _ _ _ Ht) as Hlt.
  pose proof (Forall2_length _ _ _ Hd) as Hld.
  rewrite length_take in Hlt, Hld.
  assert (main w api_key place days "Temperature"
          = match px_line w dates temperature with
            | Ok _ =>
                (Ok tt,
                 page_header "Temperature" days place
                   ++ [HttpGet (forecast_url api_key place);
                       StPlotlyChart dates temperature])
            | Raise e =>
                if is_KeyError e
                then (Ok tt,
                      page_header "Temperature" days place
                        ++ [HttpGet (forecast_url api_key place); generic_error])
                else (Raise e,
                      page_header "Temperature" days place
                        ++ [HttpGet (forecast_url api_key place)])
            end) as Hmain.
  { rewrite (main_temperature _ _ _ _ _ Hplace Hfetch), Hbranch.
    destruct (px_line w dates temperature) as [fig|e]; [reflexivity|].
    cbn. by destruct (is_KeyError e). }
  split; [lia|]. split; [lia|]. split; [|split; [exact Hmain|]].
  - intros i entry Hi Hentry.
    assert (take (Z.to_nat (8 * days)) l !! i = Some entry) as Hwin.
    { rewrite lookup_take_lt by lia. exact Hentry. }
    destruct (Forall2_lookup_l _ _ _ _ _ Ht Hwin) as (t' & Hti & Hte).
    destruct (Forall2_lookup_l _ _ _ _ _ Hd Hwin) as (d' & Hdi & Hde).
    assert (temperature_point entry = true) as Hpoint.
    { apply (proj1 (forallb_forall _ _) Hwf), list_elem_of_In.
      apply list_elem_of_lookup. by exists i. }
    destruct (temperature_point_fields entry Hpoint)
      as (mi & mm & d & t & He & Hmd & Hmain' & Hmt & Hd' & Ht').
    exists mi, mm, d, t. repeat split; try done; congruence.
  - intros Hne Hpos Hplotly. rewrite Hmain. unfold px_line. rewrite Hplotly.
    destruct dates as [|d0 dates]; [|reflexivity].
    destruct l; [done|]. cbn in Hld. lia.
Qed.

Lemma temperature_run_witness :
  exists temperature dates : list json,
    main (Cases.serving (Samples.series 8 ++ [Cases.not_an_object]))
         None "Tokyo" 1 "Temperature"
    = (Ok tt,
       page_header "Temperature" 1 "Tokyo"
         ++ [HttpGet (forecast_url None "Tokyo"); StPlotlyChart dates temperature]) /\
    Z.of_nat (length dates) = 8.
Proof.
  assert (forallb temperature_point
            (take (Z.to_nat (8 * 1)) (Samples.series 8 ++ [Cases.not_an_object]))
          = true) as Hwf by (vm_compute; reflexivity).
  destruct (temperature_run
    (Cases.serving (Samples.series 8 ++ [Cases.not_an_object]))
    None "Tokyo" 1
    {| status_code := 200;
       body_json := Some (Samples.forecast_body
                            (Samples.series 8 ++ [Cases.not_an_object])) |}
    _ (Samples.series 8 ++ [Cases.not_an_object])
    ltac:(discriminate) ltac:(lia) eq_refl eq_refl
    ltac:(vm_compute; reflexivity) Hwf)
    as (temperature & dates & Hlen & _ & _ & _ & Hchart).
  exists temperature, dates. split; [|exact Hlen].
  apply Hchart; [discriminate|lia|reflexivity].
Defined.

(** X10: an empty forecast.  When the provider's list is empty, or
    [days] is zero, a Sky run shows an empty image grid and no error
    message.  A Temperature run does not complete: [px.line] is called
    with two empty sequences and raises [ValueError], which the handler
    does not catch, so neither a chart nor an error message is
    shown. *)
Theorem empty_forecast_runs (w : world) (api_key : option string)
    (place : string) (days : Z) (r : response) (m : gmap string json) (l : list json) :
  place <> "" ->
  requests_get w (forecast_url api_key place) = Responded r ->
  body_json r = Some (JObj m) ->
  m !! "list" = Some (JArr l) ->
  l = [] \/ days = 0 ->
  main w api_key place days "Sky"
  = (Ok tt,
     page_header "Sky" days place
       ++ [HttpGet (forecast_url api_key place); StImage [] 115 []]) /\
  main w api_key place days "Temperature"
  = (Raise ValueError,
     page_header "Temperature" days place ++ [HttpGet (forecast_url api_key place)]).
Proof.
  intros Hplace%truthy_str_nonempty Hget Hbody Hlist Hempty.
  assert (fst (get_data w api_key place days) = Ok (SeqList [])) as Hfetch.
  { rewrite get_data_result, Hget. unfold response_json. rewrite Hbody. cbn.
    rewrite Hlist. cbn. destruct Hempty as [->| ->].
    - by rewrite take_nil.
    - reflexivity. }
  split.
  - by rewrite (main_sky _ _ _ _ _ Hplace Hfetch).
  - by rewrite (main_temperature _ _ _ _ _ Hplace Hfetch).
Qed.

Lemma empty_forecast_runs_witness :
  main (Cases.serving [Samples.p0; Samples.p_mist]) None "Tokyo" 0 "Temperature"
  = (Raise ValueError,
     page_header "Temperature" 0 "Tokyo" ++ [HttpGet (forecast_url None "Tokyo")]).
Proof.
  refine (proj2 (empty_forecast_runs
    (Cases.serving [Samples.p0; Samples.p_mist]) None "Tokyo" 0
    _ _ [Samples.p0; Samples.p_mist] _ eq_refl eq_refl _ _)).
  - discriminate.
  - vm_compute. reflexivity.
  - right. reflexivity.
Defined.

(** ** backend.py run as a script *)

(** The script after the fetch. *)
Lemma script_main_eq (w : world) (api_key : option string) :
  script_main w api_key
  = try_except_Exception
      (let$ test_data :=
         (fst (get_data w api_key "Tokyo" 3),
          [Effect (HttpGet (forecast_url api_key "Tokyo"))]) in
       do$ print (PrintText ("Number of data points retrieved: "
                               +:+ pretty (Z.of_nat (seq_len test_data)))) in
       if truthy_seq test_data then
         do$ print (PrintText "Sample data point structure:") in
         let$ dt_txt := slift (rbind (seq_getitem_0 test_data) entry_dt_txt) in
         do$ print (PrintValue "Date/Time: " dt_txt) in
         let$ temp := slift (rbind (seq_getitem_0 test_data) entry_temp) in
         do$ print (PrintValue "Temperature (K): " temp) in
         let$ weather := slift (rbind (seq_getitem_0 test_data) entry_sky) in
         print (PrintValue "Weather: " weather)
       else (Ok tt, []))
      (fun e =>
         do$ print (PrintExn "Error testing get_data function: " e) in
         print (PrintText "Please check your API key and internet connection.")).
Proof.
  unfold script_main, call. by rewrite get_data_log.
Qed.

Ltac case_script :=
  match goal with
  | |- context [truthy_seq ?xs] => destruct (truthy_seq xs)
  | |- context [rbind (seq_getitem_0 ?xs) ?f] =>
      destruct (rbind (seq_getitem_0 xs) f)
  end.

(** X11: the test block never ends in an exception, whatever the
    network answers and whatever the response holds, and it performs
    exactly one GET: the forecast of Tokyo. *)
Theorem script_main_never_raises (w : world) (api_key : option string) :
  fst (script_main w api_key) = Ok tt /\
  List.filter is_Effect (snd (script_main w api_key))
  = [Effect (HttpGet ("http://api.openweathermap.org/data/2.5/forecast?q=Tokyo&appid="
                        +:+ format_opt api_key +:+ "&units=metric"))].
Proof.
  rewrite script_main_eq.
  destruct (fst (get_data w api_key "Tokyo" 3)) as [test_data|e]; cbn;
    [|split; reflexivity].
  repeat case_script; cbn; split; reflexivity.
Qed.

(** X12: when the fetch raises, the test block prints neither a count
    nor a sample: after the GET it prints the error line with the
    exception and the line about the key and the connection. *)
Theorem script_main_fetch_fails (w : world) (api_key : option string) (e : exn) :
  fst (get_data w api_key "Tokyo" 3) = Raise e ->
  script_main w api_key
  = (Ok tt,
     [Effect (HttpGet (forecast_url api_key "Tokyo"));
      Print (PrintExn "Error testing get_data function: " e);
      Print (PrintText "Please check your API key and internet connection.")]).
Proof.
  intros Hfetch. rewrite script_main_eq, Hfetch. reflexivity.
Qed.

Lemma script_main_fetch_fails_witness :
  script_main Samples.unreachable (Some "k")
  = (Ok tt,
     [Effect (HttpGet (forecast_url (Some "k") "Tokyo"));
      Print (PrintExn "Error testing get_data function: " RequestException);
      Print (PrintText "Please check your API key and internet connection.")]).
Proof.
  apply (script_main_fetch_fails Samples.unreachable (Some "k") RequestException).
  reflexivity.
Defined.

(** X13: when the provider answers with a forecast list, the test
    block prints the number of entries kept, which is the length of
    the list capped at 24.  For an empty list it prints nothing more;
    otherwise, when the first entry carries a time text, a temperature
    and a category, it prints those three values of the first entry
    and no error line. *)
Theorem script_main_report (w : world) (api_key : option string)
    (r : response) (m : gmap string json) (l : list json) :
  requests_get w (forecast_url api_key "Tokyo") = Responded r ->
  body_json r = Some (JObj m) ->
  m !! "list" = Some (JArr l) ->
  let count :=
    Print (PrintText ("Number of data points retrieved: "
                        +:+ pretty (Z.min (Z.of_nat (length l)) 24))) in
  exists rest : list script_event,
    script_main w api_key
    = (Ok tt, Effect (HttpGet (forecast_url api_key "Tokyo")) :: count :: rest) /\
    (l = [] -> rest = []) /\
    (forall (entry : json) (rest' : list json) (d t c : json),
       l = entry :: rest' ->
       entry_dt_txt entry = Ok d -> entry_temp entry = Ok t -> entry_sky entry = Ok c ->
       rest = [Print (PrintText "Sample data point structure:");
               Print (PrintValue "Date/Time: " d);
               Print (PrintValue "Temperature (K): " t);
               Print (PrintValue "Weather: " c)]).
Proof.
  intros Hget Hbody Hlist count. subst count.
  assert (fst (get_data w api_key "Tokyo" 3) = Ok (SeqList (take 24 l))) as Hfetch.
  { rewrite get_data_result, Hget. unfold response_json. rewrite Hbody. cbn.
    by rewrite Hlist. }
  rewrite script_main_eq, Hfetch.
  assert (Z.of_nat (seq_len (SeqList (take 24 l))) = Z.min (Z.of_nat (length l)) 24)
    as Hlen by (cbn [seq_len]; rewrite length_take; lia).
  destruct l as [|entry rest'].
  - eexists. split; [reflexivity|]. split; [done|]. by intros.
  - unfold sbind at 1. cbn [try_except_Exception]. rewrite Hlen.
    change (take 24 (entry :: rest')) with (entry :: take 23 rest').
    cbn [truthy_seq seq_getitem_0 getitem_0 rbind].
    destruct (entry_dt_txt entry) as [d|] eqn:Hd;
      destruct (entry_temp entry) as [t|] eqn:Ht;
      destruct (entry_sky entry) as [c|] eqn:Hc;
      (eexists; split; [reflexivity|]); (split; [done|]);
      intros ? ? ? ? ? [= <- <-] Hd' Ht' Hc'; cbn; congruence.
Qed.

Lemma script_main_report_witness :
  exists rest : list script_event,
    script_main (Cases.serving [Samples.p0; Samples.p1]) None
    = (Ok tt,
       Effect (HttpGet (forecast_url None "Tokyo"))
         :: Print (PrintText "Number of data points retrieved: 2") :: rest).
Proof.
  destruct (script_main_report (Cases.serving [Samples.p0; Samples.p1]) None
              {| status_code := 200;
                 body_json := Some (Samples.forecast_body [Samples.p0; Samples.p1]) |}
              _ [Samples.p0; Samples.p1] eq_refl eq_refl
              ltac:(vm_compute; reflexivity))
    as (rest & Hrun & _).
  exists rest. exact Hrun.
Defined.

(** ** From the provider's list to the image grid *)



